(** * rez build process: a shallow embedding of [rez/build_process_.py]

    The module sequences the build and release of a package: it walks the
    package's variants, resolves a build context for each, guards a release
    with pre-flight checks, runs release hooks and assembles the release
    record.  Python code is embedded as computations in a state-and-exception
    monad over an explicit [World]. *)

From Stdlib Require Import ZArith Ascii String.
From stdpp Require Import base strings list gmap sorting pretty.

Local Open Scope Z_scope.

(** ** Python strings *)

Module PyStr.

(** The newline character of the format strings. *)
Definition NL : string := String "010"%char EmptyString.

(** [bool(s)]: a string is true when it is not empty. *)
Definition truthy (s : string) : bool :=
  match s with EmptyString => false | String _ _ => true end.

(** [len(s)] as a Python integer. *)
Definition len (s : string) : Z := Z.of_nat (String.length s).

(** [c * n] *)
Fixpoint repeat (c : string) (n : nat) : string :=
  match n with O => EmptyString | S n' => c +:+ repeat c n' end.

(** [sep.join(l)] *)
Fixpoint join (sep : string) (l : list string) : string :=
  match l with
  | [] => EmptyString
  | [x] => x
  | x :: rest => x +:+ sep +:+ join sep rest
  end.

(** [s[:n]]: the first [n] characters, or for a negative [n] all but the
    last [-n] ones. *)
Definition slice_to (s : string) (n : Z) : string :=
  if n <? 0
  then String.substring 0 (Z.to_nat (len s + n)) s
  else String.substring 0 (Z.to_nat n) s.

(** [s.startswith(p)] *)
Fixpoint startswith (s p : string) : bool :=
  match p, s with
  | EmptyString, _ => true
  | String a p', String b s' => if Ascii.eqb a b then startswith s' p' else false
  | String _ _, EmptyString => false
  end.

(** [s.endswith(c)] for a one-character [c]. *)
Fixpoint endswith_char (s : string) (c : ascii) : bool :=
  match s with
  | EmptyString => false
  | String a EmptyString => Ascii.eqb a c
  | String _ s' => endswith_char s' c
  end.

(** [needle in hay] on strings: [needle] occurs as a substring. *)
Fixpoint contains (hay needle : string) : bool :=
  startswith hay needle ||
  match hay with
  | EmptyString => false
  | String _ hay' => contains hay' needle
  end.

(** [repr(s)] of a string without quote or escape characters. *)
Definition repr (s : string) : string := "'" +:+ s +:+ "'".

(** [str(i)] and [%d] of an integer. *)
Definition of_int (i : Z) : string := pretty i.

End PyStr.

(** [os.path.join(a, b)] of [posixpath]. *)
Definition os_path_join (a b : string) : string :=
  if PyStr.startswith b "/" then b
  else if negb (PyStr.truthy a) || PyStr.endswith_char a "/"%char then a +:+ b
  else a +:+ "/" +:+ b.

(** [range(n)] *)
Definition range (n : Z) : list Z := seqZ 0 n.

(** ** Exceptions *)

(** An exception class is its name and its chain of base classes. *)
Inductive exc_class : Type :=
| Exception
| Subclass (name : string) (base : exc_class).

Global Instance exc_class_eq_dec : EqDecision exc_class.
Proof. solve_decision. Defined.

Definition class_name (c : exc_class) : string :=
  match c with Exception => "Exception" | Subclass n _ => n end.

Fixpoint issubclass (c d : exc_class) : bool :=
  bool_decide (c = d) ||
  match c with
  | Exception => false
  | Subclass _ base => issubclass base d
  end.

(** Modelled from the spec: the module [rez.exceptions] is imported, not
    defined, by the build process.  The error taxonomy names the classes; each
    is taken as a direct subclass of the domain base class [RezError]. *)
Definition RezError : exc_class := Subclass "RezError" Exception.
Definition BuildError : exc_class := Subclass "BuildError" RezError.
Definition BuildContextResolveError : exc_class :=
  Subclass "BuildContextResolveError" RezError.
Definition BuildProcessError : exc_class := Subclass "BuildProcessError" RezError.
Definition ReleaseError : exc_class := Subclass "ReleaseError" RezError.
Definition ReleaseVCSError : exc_class := Subclass "ReleaseVCSError" RezError.
Definition ReleaseHookCancellingError : exc_class :=
  Subclass "ReleaseHookCancellingError" RezError.

(** Built-in exceptions raised by the interpreter itself. *)
Definition AssertionError : exc_class := Subclass "AssertionError" Exception.
Definition UnboundLocalError : exc_class :=
  Subclass "UnboundLocalError" (Subclass "NameError" Exception).
Definition IndexError : exc_class :=
  Subclass "IndexError" (Subclass "LookupError" Exception).

(** ** Resolved contexts *)

(** [rez.resolver.ResolverStatus] *)
Inductive ResolverStatus := pending | solved | failed | aborted.

Global Instance ResolverStatus_eq_dec : EqDecision ResolverStatus.
Proof. solve_decision. Defined.

(** What [ResolvedContext(request, package_paths=..., building=True)] holds:
    its inputs, the status the resolver reached and the text [print_info]
    shows. *)
Record ResolvedContext := {
  ctx_request : list string;
  ctx_package_paths : list string;
  ctx_building : bool;
  ctx_status : ResolverStatus;
  ctx_info : list string;
}.

(** An exception instance: a class with its message, or a class carrying the
    context that failed to resolve. *)
Inductive exn : Type :=
| Exc (cls : exc_class) (msg : string)
| ExcContext (cls : exc_class) (context : ResolvedContext).

Definition exn_class (e : exn) : exc_class :=
  match e with Exc c _ => c | ExcContext c _ => c end.

(** [str(e)] *)
Definition exn_str (e : exn) : string :=
  match e with Exc _ m => m | ExcContext _ _ => EmptyString end.

Definition isinstance (e : exn) (c : exc_class) : bool :=
  issubclass (exn_class e) c.

(** Whether [except exc_type] catches [e].  [exc_type] may be [None], which
    matches no exception. *)
Definition except_matches (exc_type : option exc_class) (e : exn) : bool :=
  match exc_type with
  | Some c => isinstance e c
  | None => false
  end.

(** ** Packages *)

(** The version interface the build process relies on: [<] and [str]. *)
Class VersionOps (Version : Type) := {
  version_lt : Version → Version → bool;
  version_str : Version → string;
}.

(** [a > b] *)
Definition version_gt `{VersionOps Version} (a b : Version) : bool :=
  version_lt b a.

(** Versions are ordered: [<] is a strict order in which incomparable
    versions behave alike. *)
Class VersionOrder (Version : Type) `{VersionOps Version} : Prop := {
  version_lt_irrefl : ∀ a, version_lt a a = false;
  version_lt_trans : ∀ a b c,
    version_lt a b = true → version_lt b c = true → version_lt a c = true;
  version_lt_cotrans : ∀ a b c,
    version_lt a b = true → version_lt a c = true ∨ version_lt c b = true;
}.

(** ** Configuration, variants and packages *)

(** [config.plugins.release_vcs] *)
Record ReleaseVCSSettings := {
  check_tag : bool;
  tag_name : string;
}.

(** The settings the build process reads, from the package's [config] and, for
    the changelog limit, from the global one. *)
Record Config := {
  release_hooks : option (list string);
  build_directory : string;
  packages_path : list string;
  nonlocal_packages_path : list string;
  release_packages_path : string;
  plugins_release_vcs : ReleaseVCSSettings;
  max_package_changelog_chars : Z;
}.

(** One buildable configuration of a package.  [index] is [None] or an
    integer, as [_n_of_m] below expects. *)
Record Variant := {
  index : option Z;
  requires : list string;
  build_requires : list string;
  private_build_requires : list string;
}.

(** [variant.get_requires(build_requires=True, private_build_requires=True)]

    Modelled from the spec: the requirement list is built from the variant's
    normal, build and private-build requirements; [get_requires] itself
    belongs to the packages module. *)
Definition get_requires (variant : Variant) : list string :=
  requires variant ++ build_requires variant ++ private_build_requires variant.

(** The result of a call: a value, or a raised exception. *)
Inductive outcome (A : Type) : Type :=
| Return (a : A)
| Raise (e : exn).
Arguments Return {A} a.
Arguments Raise {A} e.

Definition Revision := string.

Section BuildProcess.

Context {Version : Type} `{VersionOps Version}.

(** A package, as loaded by [get_developer_package] or listed by
    [iter_packages]. *)
Record Package := {
  name : string;
  version : Version;
  uuid : option string;
  revision : option Revision;
  uri : string;
  config : Config;
  num_variants : Z;
  iter_variants : list Variant;
  format : string → outcome string;
}.

(** A node of the file system: a directory, a saved context ([.rxt]) or any
    other file. *)
Inductive fs_node :=
| Directory
| ContextFile (context : ResolvedContext)
| File (content : string).

(** Everything outside the build process that its code reads or writes. *)
Record World := {
  stdout : list string;
  warnings : list string;
  debug_log : list string;
  filesystem : gmap string fs_node;
  repositories : gmap string (list Package);
  user : string;
}.

(** The updates of the world the code performs. *)
Definition add_stdout (lines : list string) (w : World) : World :=
  {| stdout := stdout w ++ lines; warnings := warnings w;
     debug_log := debug_log w; filesystem := filesystem w;
     repositories := repositories w; user := user w |}.

Definition add_warning (msg : string) (w : World) : World :=
  {| stdout := stdout w; warnings := warnings w ++ [msg];
     debug_log := debug_log w; filesystem := filesystem w;
     repositories := repositories w; user := user w |}.

Definition add_debug (msg : string) (w : World) : World :=
  {| stdout := stdout w; warnings := warnings w;
     debug_log := debug_log w ++ [msg]; filesystem := filesystem w;
     repositories := repositories w; user := user w |}.

Definition write_file (path : string) (node : fs_node) (w : World) : World :=
  {| stdout := stdout w; warnings := warnings w;
     debug_log := debug_log w; filesystem := <[path := node]> (filesystem w);
     repositories := repositories w; user := user w |}.

(** ** The monad of Python computations: state and exceptions *)

Definition Py (A : Type) : Type := World → outcome A * World.

Global Instance Py_ret : MRet Py := λ A a w, (Return a, w).

Global Instance Py_bind : MBind Py := λ A B k m w,
  match m w with
  | (Return a, w') => k a w'
  | (Raise e, w') => (Raise e, w')
  end.

Definition raise {A} (e : exn) : Py A := λ w, (Raise e, w).

(** [try: body  except ...: handler]; the handler re-raises what no clause
    catches. *)
Definition try_except {A} (body : Py A) (handler : exn → Py A) : Py A :=
  λ w, match body w with
       | (Return a, w') => (Return a, w')
       | (Raise e, w') => handler e w'
       end.

(** Reading and updating the world. *)
Definition gets {A} (f : World → A) : Py A := λ w, (Return (f w), w).
Definition modify (f : World → World) : Py unit := λ w, (Return tt, f w).

End BuildProcess.

Arguments Package : clear implicits.
Arguments World : clear implicits.
Arguments Py : clear implicits.

(** Loops: the body of [for x in xs] says whether the loop goes on to the next
    element or was left by [break]; [st] holds the variables the body updates. *)
Inductive loop_ctl := Next | Break.

Fixpoint for_in {Version A St} (xs : list A) (st : St)
    (body : A → St → Py Version (loop_ctl * St)) : Py Version St :=
  match xs with
  | [] => mret st
  | x :: xs' =>
      r ← body x st;
      match r.1 with
      | Next => for_in xs' r.2 body
      | Break => mret r.2
      end
  end.

(** ** Collaborators of the build process *)

Section Collaborators.

Context {Version : Type}.

(** The version-control adapter ([ReleaseVCS]), bound to [vcs_path]. *)
Record ReleaseVCS := {
  vcs_path : string;
  vcs_name : string;
  validate_repostate : Py Version unit;
  tag_exists : string → Py Version bool;
  create_release_tag : string → option string → Py Version unit;
  get_current_revision : Py Version Revision;
  get_changelog : option Revision → Py Version string;
}.

(** Keyword arguments handed through to the hooks. *)
Definition kwargs := list (string * string).

(** A release hook: its name and, for a callback name, the lookup of that
    attribute followed by the call with [user] and the keyword arguments. *)
Record ReleaseHook := {
  hook_name : string;
  hook_callback : string → string → kwargs → Py Version unit;
}.

(** A life-cycle event ([ReleaseHookEvent]). *)
Record ReleaseHookEvent := {
  label : string;
  noun : string;
  func_name : string;
}.

(** Enum to represent the type of build. *)
Inductive BuildType := local | central.

(** The fields [BuildProcess.__init__] sets. *)
Record BuildProcess := {
  verbose : bool;
  working_dir : string;
  build_system : string;
  vcs : option ReleaseVCS;
  ensure_latest : bool;
  skip_errors : bool;
  ignore_existing_tag : bool;
  package : Package Version;
  hooks : list ReleaseHook;
  build_path : string;
}.

(** The build process with another list of loaded hooks. *)
Definition with_hooks (self : BuildProcess) (hooks_ : list ReleaseHook) :
    BuildProcess :=
  {| verbose := verbose self; working_dir := working_dir self;
     build_system := build_system self; vcs := vcs self;
     ensure_latest := ensure_latest self; skip_errors := skip_errors self;
     ignore_existing_tag := ignore_existing_tag self; package := package self;
     hooks := hooks_; build_path := build_path self |}.

(** A build process class, called with the arguments of [__init__]. *)
Definition BuildProcessClass : Type :=
  string → string → option ReleaseVCS → bool → bool → bool → bool →
  Py Version BuildProcess.

(** [rez.plugin_managers.plugin_manager] *)
Record PluginManager := {
  get_plugins : string → Py Version (list string);
  get_plugin_class : string → string → Py Version BuildProcessClass;
}.

(** The resolution engine behind [ResolvedContext(...)]: for a request, the
    package paths and the [building] flag it gives, in the current world, the
    status reached and the text [print_info] shows. *)
Definition Resolver : Type :=
  list string → list string → bool → World Version →
  ResolverStatus * list string.

(** ** Effects on the world *)

(** [print txt] *)
Definition print (txt : string) : Py Version unit := modify (add_stdout [txt]).

(** [print_warning(msg)] of [rez.utils.logging_] *)
Definition print_warning (msg : string) : Py Version unit :=
  modify (add_warning msg).

(** [self.debug_print(msg)], the printer [config.debug_printer] gives *)
Definition debug_print (msg : string) : Py Version unit :=
  modify (add_debug msg).

(** The class [ResolvedContext] of [rez.resolved_context], which the build
    process imports and does not define: its constructor
    [ResolvedContext(request, package_paths=..., building=...)] and the two
    methods the build process calls on a context, [print_info()] and
    [save(path)].  Each may read and change the world, and may raise. *)
Record ResolvedContextClass := {
  ResolvedContext_new :
    list string → list string → bool → Py Version ResolvedContext;
  print_info : ResolvedContext → Py Version unit;
  save : ResolvedContext → string → Py Version unit;
}.

(** Modelled from the spec: [ResolvedContext.save] is not part of the sources;
    it persists the context to the given path, so that a failed resolution
    remains inspectable. *)
Definition context_save (context : ResolvedContext) (path : string) :
    Py Version unit :=
  modify (write_file path (ContextFile context)).

(** Modelled from the spec: [ResolvedContext.print_info] is not part of the
    sources; it shows the [info()] of the resolution on standard output. *)
Definition context_print_info (context : ResolvedContext) : Py Version unit :=
  modify (add_stdout (ctx_info context)).

(** [os.path.exists(path)] *)
Definition os_path_exists (path : string) : Py Version bool :=
  gets (λ w, bool_decide (is_Some (filesystem w !! path))).

(** [getpass.getuser()] *)
Definition getpass_getuser : Py Version string := gets user.

(** [iter_packages(name, paths=paths)]

    Modelled from the spec: the packages module is not part of the sources;
    the call loads all already-released packages with this name from the
    given repository paths. *)
Definition iter_packages (name_ : string) (paths : list string) :
    Py Version (list (Package Version)) :=
  gets (λ w, filter (λ p, name p = name_)
               (mjoin ((λ path, default [] (repositories w !! path)) <$> paths))).

(** Modelled from the spec: the constructor of [ResolvedContext] is not part
    of the sources; the resolution engine is a black box that, given a
    requirement list, the search paths and the building flag, returns a
    status and an info text. *)
Definition new_ResolvedContext (resolver : Resolver) (request : list string)
    (package_paths : list string) (building : bool) : Py Version ResolvedContext :=
  gets (λ w, let r := resolver request package_paths building w in
             {| ctx_request := request; ctx_package_paths := package_paths;
                ctx_building := building; ctx_status := r.1; ctx_info := r.2 |}).

(** Modelled from the spec: the resolved-context class as the spec describes
    it, over a resolution engine [resolver]. *)
Definition resolved_contexts (resolver : Resolver) : ResolvedContextClass := {|
  ResolvedContext_new := new_ResolvedContext resolver;
  print_info := context_print_info;
  save := context_save;
|}.

End Collaborators.

Arguments ReleaseVCS : clear implicits.
Arguments ReleaseHook : clear implicits.
Arguments BuildProcess : clear implicits.
Arguments BuildProcessClass : clear implicits.
Arguments PluginManager : clear implicits.
Arguments Resolver : clear implicits.
Arguments ResolvedContextClass : clear implicits.

(** ** [create_build_process] and [BuildProcessHelper] *)

Section BuildProcessHelper.

Context {Version : Type} `{VersionOps Version}.

Local Abbreviation Py := (Py Version).
Local Abbreviation Package := (Package Version).
Local Abbreviation BuildProcess := (BuildProcess Version).

(** [get_build_process_types()] *)
Definition get_build_process_types (plugin_manager : PluginManager Version) :
    Py (list string) :=
  get_plugins plugin_manager "build_process".

(** [create_build_process(process_type, working_dir, build_system, ...)]:
    the guard tests [process_type not in process_type]. *)
Definition create_build_process (plugin_manager : PluginManager Version)
    (process_type working_dir build_system : string)
    (vcs : option (ReleaseVCS Version))
    (ensure_latest skip_errors ignore_existing_tag verbose : bool) :
    Py BuildProcess :=
  process_types ← get_build_process_types plugin_manager;
  (if negb (PyStr.contains process_type process_type)
   then raise (Exc BuildProcessError
                 ("Unknown build process: " +:+ PyStr.repr process_type))
   else mret tt);;
  cls ← get_plugin_class plugin_manager "build_process" process_type;
  cls working_dir build_system vcs ensure_latest skip_errors
      ignore_existing_tag verbose.

(** [self._print(txt)], with the arguments already formatted into [txt] *)
Definition _print (self : BuildProcess) (txt : string) : Py unit :=
  if verbose self then print txt else mret tt.

(** [self._print_header(txt, n)] *)
Definition _print_header (self : BuildProcess) (txt : string) (n : Z) : Py unit :=
  _print self EmptyString;;
  if n <=? 1 then
    _print self (PyStr.repeat "-" 80);;
    _print self txt;;
    _print self (PyStr.repeat "-" 80)
  else
    _print self txt;;
    _print self (PyStr.repeat "-" (String.length txt)).

(** [self._n_of_m(variant)] *)
Definition _n_of_m (self : BuildProcess) (variant : Variant) : string :=
  let num_variants := Z.max (num_variants (package self)) 1 in
  let index := default 0 (index variant) + 1 in
  PyStr.of_int index +:+ "/" +:+ PyStr.of_int num_variants.

(** [with self.repo_operation(): body].  The value is [None] when an error
    was skipped, so that the variables the body assigns keep their values. *)
Definition repo_operation {A} (self : BuildProcess) (body : Py A) : Py (option A) :=
  let exc_type := if skip_errors self then Some ReleaseVCSError else None in
  try_except (a ← body; mret (Some a))
    (λ e, if except_matches exc_type e
          then print_warning ("THE FOLLOWING ERROR WAS SKIPPED:" +:+ PyStr.NL
                                +:+ exn_str e);;
               mret None
          else raise e).

(** [variants]: a list that is [None] or empty is false. *)
Definition variants_truthy (variants : option (list Z)) : bool :=
  match variants with
  | None | Some [] => false
  | Some (_ :: _) => true
  end.

(** [variant.index in variants]; [None] equals no integer. *)
Definition index_in (i : option Z) (variants : option (list Z)) : bool :=
  match i, variants with
  | Some i, Some vs => bool_decide (i ∈ vs)
  | _, _ => false
  end.

(** [set(variants) - set(present_variants)] *)
Definition invalid_variants_of (variants present_variants : list Z) : gset Z :=
  list_to_set variants ∖ list_to_set present_variants.

(** [sorted(s)] of a set of integers *)
Definition sorted_set (s : gset Z) : list Z := merge_sort Z.le (elements s).

(** Iterate over variants and call a function on each. *)
Definition visit_variants {R} (self : BuildProcess) (func : Variant → Py R)
    (variants : option (list Z)) : Py (Z * list R) :=
  (if variants_truthy variants then
     let present_variants := range (num_variants (package self)) in
     let invalid_variants :=
       invalid_variants_of (default [] variants) present_variants in
     if negb (bool_decide (invalid_variants = ∅)) then
       raise (Exc BuildError
                ("The package does not contain the variants: "
                 +:+ PyStr.join ", " (PyStr.of_int <$> sorted_set invalid_variants)))
     else mret tt
   else mret tt);;
  (* iterate over variants *)
  st ← for_in (iter_variants (package self)) ([], 0)
         (λ variant '(results, num_visited),
            if variants_truthy variants && negb (index_in (index variant) variants)
            then
              _print_header self ("Skipping " +:+ _n_of_m self variant +:+ "...") 1;;
              mret (Next, (results, num_visited))
            else
              result ← func variant;
              mret (Next, (results ++ [result], num_visited + 1)));
  mret (st.2, st.1).

(** Create a context to build the variant within. *)
Definition create_build_context (ResolvedContext_ : ResolvedContextClass Version)
    (self : BuildProcess) (variant : Variant) (build_type : BuildType)
    (build_path : string) : Py (ResolvedContext * string) :=
  let request := get_requires variant in
  let requests_str := PyStr.join " " request in
  _print self ("Resolving build environment: " +:+ requests_str);;
  let packages_path :=
    match build_type with
    | local => packages_path (config (package self))
    | central => nonlocal_packages_path (config (package self))
    end in
  context ← ResolvedContext_new ResolvedContext_ request packages_path true;
  (if verbose self then print_info ResolvedContext_ context else mret tt);;
  (* save context before possible fail, so user can debug *)
  let rxt_filepath := os_path_join build_path "build.rxt" in
  save ResolvedContext_ context rxt_filepath;;
  if negb (bool_decide (ctx_status context = solved)) then
    raise (ExcContext BuildContextResolveError context)
  else mret (context, rxt_filepath).

(** [assert self.vcs] *)
Definition assert_vcs (self : BuildProcess) : Py (ReleaseVCS Version) :=
  match vcs self with
  | Some v => mret v
  | None => raise (Exc AssertionError EmptyString)
  end.

(** [self.get_current_tag_name()] *)
Definition get_current_tag_name (self : BuildProcess) : Py string :=
  let release_settings := plugins_release_vcs (config (package self)) in
  tag_name ← match format (package self) (tag_name release_settings) with
             | Return tag_name => mret tag_name
             | Raise e =>
                 raise (Exc ReleaseError
                          ("Error formatting release tag name: " +:+ exn_str e))
             end;
  if negb (PyStr.truthy tag_name) then mret "unversioned" else mret tag_name.

(** [sorted(it, key=lambda x: x.version, reverse=True)]: a stable sort by
    descending version, as an insertion that goes past the strictly greater
    versions only. *)
Fixpoint insert_by_version (x : Package) (l : list Package) : list Package :=
  match l with
  | [] => [x]
  | y :: l' =>
      if version_lt (version x) (version y)
      then y :: insert_by_version x l'
      else x :: l
  end.

Definition sorted_by_version_reverse (it : list Package) : list Package :=
  foldr insert_by_version [] it.

(** [bool(l)] of a list *)
Definition list_truthy {A} (l : list A) : bool :=
  match l with [] => false | _ :: _ => true end.

(** [bool(uuid)]: [None] and the empty string are false. *)
Definition uuid_truthy (u : option string) : bool :=
  match u with
  | Some s => PyStr.truthy s
  | None => false
  end.

(** [pre_release], up to the tag check: the release path exists, the
    repository is in a state to release and is not already tagged at the
    current version. *)
Definition pre_release_repository_checks (self : BuildProcess) : Py unit :=
  let release_settings := plugins_release_vcs (config (package self)) in
  (* test that the release path exists *)
  let release_path := release_packages_path (config (package self)) in
  path_exists ← os_path_exists release_path;
  (if negb path_exists then
     raise (Exc ReleaseError
              ("Release path does not exist: " +:+ PyStr.repr release_path))
   else mret tt);;
  (* test that the repo is in a state to release *)
  vcs ← assert_vcs self;
  _print self "Checking state of repository...";;
  repo_operation self (validate_repostate vcs);;
  (* check if the repo is already tagged at the current version *)
  if check_tag release_settings && negb (ignore_existing_tag self) then
    tag_name ← get_current_tag_name self;
    r ← repo_operation self (tag_exists vcs tag_name);
    let tag_exists := default false r in
    if tag_exists then
      raise (Exc ReleaseError
               ("Cannot release - the current package version '"
                +:+ version_str (version (package self))
                +:+ "' is already tagged in the repository. "
                +:+ "Use --ignore-existing-tag to force the release"))
    else mret tt
  else mret tt.

(** The released packages of this name, newest version first. *)
Definition released_packages (self : BuildProcess) : Py (list Package) :=
  let release_path := release_packages_path (config (package self)) in
  it ← iter_packages (name (package self)) [release_path];
  mret (sorted_by_version_reverse it).

(** check UUID. This stops unrelated packages that happen to have the same
    name, being released as though they are the same package *)
Definition check_uuid (self : BuildProcess) (packages : list Package) : Py unit :=
  if uuid_truthy (uuid (package self)) && list_truthy packages then
    match head packages with
    | Some latest_package =>
        if uuid_truthy (uuid latest_package)
           && negb (bool_decide (uuid latest_package = uuid (package self)))
        then
          raise (Exc ReleaseError
                   "Cannot release - the packages are not the same (UUID mismatch)")
        else mret tt
    | None => raise (Exc IndexError "list index out of range")
    end
  else mret tt.

(** test that a newer package version hasn't already been released *)
Definition check_latest (self : BuildProcess) (packages : list Package) : Py unit :=
  if ensure_latest self then
    for_in packages tt
      (λ package_ _,
         if version_gt (version package_) (version (package self)) then
           raise (Exc ReleaseError
                    ("Cannot release - a newer package version already exists ("
                     +:+ uri package_ +:+ ")"))
         else mret (Break, tt))
  else mret tt.

Definition pre_release (self : BuildProcess) : Py unit :=
  pre_release_repository_checks self;;
  packages ← released_packages self;
  check_uuid self packages;;
  check_latest self packages.

Definition post_release (self : BuildProcess) (release_message : option string) :
    Py unit :=
  tag_name ← get_current_tag_name self;
  (* write a tag for the new release into the vcs *)
  vcs ← assert_vcs self;
  repo_operation self (create_release_tag vcs tag_name release_message);;
  mret tt.

(** The body of the loop of [run_hooks], for one [hook].  The loop state is
    the local variable [e], which only the first [except] clause binds. *)
Definition run_hook (self : BuildProcess) (hook_event : ReleaseHookEvent)
    (kw : kwargs) (hook : ReleaseHook Version) (e : option exn) :
    Py (loop_ctl * option exn) :=
  debug_print ("Running " +:+ label hook_event +:+ " hook '"
               +:+ hook_name hook +:+ "'...");;
  try_except
    (user ← getpass_getuser;
     hook_callback hook (func_name hook_event) user kw;;
     mret (Next, e))
    (λ exc,
       if isinstance exc ReleaseHookCancellingError then
         let e := Some exc in
         raise (Exc ReleaseError
                  (noun hook_event +:+ " cancelled by " +:+ label hook_event
                   +:+ " hook '" +:+ hook_name hook +:+ "': "
                   +:+ class_name (exn_class exc) +:+ ":" +:+ PyStr.NL
                   +:+ exn_str exc))
       else if isinstance exc RezError then
         match e with
         | Some e' =>
             debug_print ("Error in " +:+ label hook_event +:+ " hook '"
                          +:+ hook_name hook +:+ "': "
                          +:+ class_name (exn_class e') +:+ ":" +:+ PyStr.NL
                          +:+ exn_str e');;
             mret (Next, e)
         | None =>
             raise (Exc UnboundLocalError
                      "local variable 'e' referenced before assignment")
         end
       else raise exc).

(** [self.run_hooks(hook_event, **kwargs)] *)
Definition run_hooks (self : BuildProcess) (hook_event : ReleaseHookEvent)
    (kw : kwargs) : Py unit :=
  for_in (hooks self) None (run_hook self hook_event kw);;
  mret tt.

(** The exception [run_hooks] raises when [hook] cancels with [exc]. *)
Definition cancelled_error (hook_event : ReleaseHookEvent)
    (hook : ReleaseHook Version) (exc : exn) : exn :=
  Exc ReleaseError
    (noun hook_event +:+ " cancelled by " +:+ label hook_event
     +:+ " hook '" +:+ hook_name hook +:+ "': "
     +:+ class_name (exn_class exc) +:+ ":" +:+ PyStr.NL +:+ exn_str exc).

(** The world in which the callback of [hook] starts: the "Running" line has
    been logged. *)
Definition hook_started (hook_event : ReleaseHookEvent)
    (hook : ReleaseHook Version) (w : World Version) : World Version :=
  add_debug ("Running " +:+ label hook_event +:+ " hook '"
             +:+ hook_name hook +:+ "'...") w.

Definition get_previous_release (self : BuildProcess) : Py (option Package) :=
  let release_path := release_packages_path (config (package self)) in
  it ← iter_packages (name (package self)) [release_path];
  let packages := sorted_by_version_reverse it in
  mret (find (λ package_, version_lt (version package_) (version (package self)))
          packages).

(** The dict [get_release_data] returns. *)
Record ReleaseData := {
  rd_vcs : string;
  rd_revision : option Revision;
  rd_changelog : option string;
  rd_previous_version : option Version;
  rd_previous_revision : option Revision;
}.

(** [bool(changelog)] *)
Definition changelog_truthy (changelog : option string) : bool :=
  match changelog with
  | Some s => PyStr.truthy s
  | None => false
  end.

(** Get release data for this release.  [global_config] is the module-level
    [config]. *)
Definition get_release_data (global_config : Config) (self : BuildProcess) :
    Py ReleaseData :=
  previous_package ← get_previous_release self;
  let previous_version := version <$> previous_package in
  let previous_revision := previous_package ≫= revision in
  vcs ← assert_vcs self;
  revision ← repo_operation self (get_current_revision vcs);
  changelog ← repo_operation self (get_changelog vcs previous_revision);
  (* truncate changelog - very large changelogs can cause package load
     times to be very high, we don't want that *)
  let maxlen := max_package_changelog_chars global_config in
  let changelog :=
    if negb (maxlen =? 0) && changelog_truthy changelog
       && (PyStr.len (default EmptyString changelog) >? maxlen + 3)
    then Some (PyStr.slice_to (default EmptyString changelog) maxlen +:+ "...")
    else changelog in
  mret {| rd_vcs := vcs_name vcs;
          rd_revision := revision;
          rd_changelog := changelog;
          rd_previous_version := previous_version;
          rd_previous_revision := previous_revision |}.

(** What [_print_header] prints for a skipped variant. *)
Definition skip_header (self : BuildProcess) (variant : Variant) : list string :=
  [EmptyString; PyStr.repeat "-" 80;
   "Skipping " +:+ _n_of_m self variant +:+ "..."; PyStr.repeat "-" 80].

End BuildProcessHelper.

(** ** [BuildProcess]: construction and the install path *)

Section BuildProcessBase.

Context {Version : Type} `{VersionOps Version}.

(** The loaders [BuildProcess.__init__] calls: [get_developer_package] of the
    packages module and [create_release_hooks] of the release-hook module. *)
Record Loaders := {
  get_developer_package : string → Py Version (Package Version);
  create_release_hooks :
    list string → string → Py Version (list (ReleaseHook Version));
}.

(** [BuildProcess.__init__]: create a BuildProcess. *)
Definition BuildProcess_init (loaders : Loaders)
    (working_dir build_system : string) (vcs : option (ReleaseVCS Version))
    (ensure_latest skip_errors ignore_existing_tag verbose : bool) :
    Py Version (BuildProcess Version) :=
  match vcs with
  | Some vcs_ =>
      if negb (bool_decide (vcs_path vcs_ = working_dir)) then
        raise (Exc BuildProcessError
                 "Build process was instantiated with a mismatched VCS instance")
      else mret tt
  | None => mret tt
  end;;
  package ← get_developer_package loaders working_dir;
  let hook_names := default [] (release_hooks (config package)) in
  hooks ← create_release_hooks loaders hook_names working_dir;
  mret {| verbose := verbose; working_dir := working_dir;
          build_system := build_system; vcs := vcs;
          ensure_latest := ensure_latest; skip_errors := skip_errors;
          ignore_existing_tag := ignore_existing_tag; package := package;
          hooks := hooks;
          build_path :=
            os_path_join working_dir (build_directory (config package)) |}.

(** A string of printable ASCII characters other than the single quote and
    the backslash: [repr] of such a string is the string between single
    quotes. *)
Definition plain_string (s : string) : bool :=
  forallb (λ c, let n := nat_of_ascii c in
                (32 <=? n)%nat && (n <=? 126)%nat
                && negb (n =? 39)%nat && negb (n =? 92)%nat)
    (list_ascii_of_string s).

(** Return the installation path for a package (where its payload goes).
    [version_truthy] is [bool(version)], which the version module defines. *)
Definition get_package_install_path (version_truthy : Version → bool)
    (self : BuildProcess Version) (path : string) : string :=
  let path_ := os_path_join path (name (package self)) in
  if version_truthy (version (package self))
  then os_path_join path_ (version_str (version (package self)))
  else path_.

End BuildProcessBase.

Arguments Loaders : clear implicits.

(** ** A concrete setting for examples

    Versions [major.minor] ordered lexicographically, a package [foo] being
    released from [/src/foo] into the repository [/rel]. *)

Module Sample.

Definition version_t : Type := nat * nat.

Global Instance version_ops : VersionOps version_t := {|
  version_lt a b := (a.1 <? b.1)%nat || ((a.1 =? b.1)%nat && (a.2 <? b.2)%nat);
  version_str a := pretty a.1 +:+ "." +:+ pretty a.2;
|}.

Definition settings : Config := {|
  release_hooks := None;
  build_directory := "build";
  packages_path := ["/local"; "/rel"];
  nonlocal_packages_path := ["/rel"];
  release_packages_path := "/rel";
  plugins_release_vcs := {| check_tag := true; tag_name := "{qualified_name}" |};
  max_package_changelog_chars := 5;
|}.

Definition variant (i : Z) : Variant := {|
  index := Some i;
  requires := ["python"];
  build_requires := ["cmake"];
  private_build_requires := [];
|}.

(** Package [foo] at version [v] with [n] variants. *)
Definition foo (v : version_t) (u : option string) (n : nat) : Package version_t := {|
  name := "foo";
  version := v;
  uuid := u;
  revision := Some ("r" +:+ version_str v);
  uri := "/rel/foo/" +:+ version_str v +:+ "/package.py";
  config := settings;
  num_variants := Z.of_nat n;
  iter_variants := variant <$> seqZ 0 (Z.of_nat n);
  format := λ _, Return ("foo-" +:+ version_str v);
|}.

(** A world in which [released] are the packages in [/rel]. *)
Definition world (released : list (Package version_t)) : World version_t := {|
  stdout := [];
  warnings := [];
  debug_log := [];
  filesystem := {[ "/rel" := Directory ]};
  repositories := {[ "/rel" := released ]};
  user := "ann";
|}.

(** A repository adapter whose calls succeed, with the given changelog. *)
Definition git (changelog : string) : ReleaseVCS version_t := {|
  vcs_path := "/src/foo";
  vcs_name := "git";
  validate_repostate := mret tt;
  tag_exists := λ _, mret false;
  create_release_tag := λ _ _, mret tt;
  get_current_revision := mret "abc123";
  get_changelog := λ _, mret changelog;
|}.

(** A repository adapter whose every call fails with [e]. *)
Definition broken_vcs (e : exn) : ReleaseVCS version_t := {|
  vcs_path := "/src/foo";
  vcs_name := "git";
  validate_repostate := raise e;
  tag_exists := λ _, raise e;
  create_release_tag := λ _ _, raise e;
  get_current_revision := raise e;
  get_changelog := λ _, raise e;
|}.

(** A hook that records its call on standard output and then returns, or
    raises [e]. *)
Definition hook (hook_name_ : string) (e : option exn) : ReleaseHook version_t := {|
  hook_name := hook_name_;
  hook_callback := λ func_name_ user_ _,
    print (hook_name_ +:+ "." +:+ func_name_ +:+ " called by " +:+ user_);;
    match e with Some e => raise e | None => mret tt end;
|}.

Definition pre_release_event : ReleaseHookEvent :=
  {| label := "pre-release"; noun := "release"; func_name := "pre_release" |}.

(** The build process of [package_] with the given adapter and hooks. *)
Definition process (package_ : Package version_t)
    (vcs_ : option (ReleaseVCS version_t)) (hooks_ : list (ReleaseHook version_t))
    (ensure_latest_ skip_errors_ verbose_ : bool) : BuildProcess version_t := {|
  verbose := verbose_;
  working_dir := "/src/foo";
  build_system := "cmake";
  vcs := vcs_;
  ensure_latest := ensure_latest_;
  skip_errors := skip_errors_;
  ignore_existing_tag := false;
  package := package_;
  hooks := hooks_;
  build_path := "/src/foo/build";
|}.

(** A per-variant function that records the variant it is called on. *)
Definition build_variant (v : Variant) : Py version_t string :=
  let label := "built " +:+ PyStr.of_int (default (-1) (index v)) in
  print label;; mret label.

(** A resolver that solves every request but the empty one. *)
Definition resolver : Resolver version_t :=
  λ request _ _ _,
    match request with
    | [] => (failed, ["nothing to resolve"])
    | _ => (solved, ["resolved"])
    end.

(** A repository adapter that finds the tag already there. *)
Definition tagged_git : ReleaseVCS version_t := {|
  vcs_path := "/src/foo";
  vcs_name := "git";
  validate_repostate := mret tt;
  tag_exists := λ _, mret true;
  create_release_tag := λ _ _, mret tt;
  get_current_revision := mret "abc123";
  get_changelog := λ _, mret "fixes";
|}.

(** A repository adapter that validates the repository and fails with [e] on
    every other call. *)
Definition flaky_git (e : exn) : ReleaseVCS version_t := {|
  vcs_path := "/src/foo";
  vcs_name := "git";
  validate_repostate := mret tt;
  tag_exists := λ _, raise e;
  create_release_tag := λ _ _, raise e;
  get_current_revision := raise e;
  get_changelog := λ _, raise e;
|}.

(** Loaders that find [package_] in every working directory and make a hook
    that returns for each hook name. *)
Definition loaders (package_ : Package version_t) : Loaders version_t := {|
  get_developer_package := λ _, mret package_;
  create_release_hooks := λ hook_names _, mret ((λ n, hook n None) <$> hook_names);
|}.

(** A per-variant function that fails on the variant of index [bad]. *)
Definition build_all_but (bad : Z) (v : Variant) : Py version_t string :=
  if bool_decide (index v = Some bad)
  then raise (Exc BuildError "compile error")
  else build_variant v.

(** Package [foo] with a tag-name template that cannot be formatted. *)
Definition foo_bad_template (v : version_t) : Package version_t := {|
  name := "foo";
  version := v;
  uuid := None;
  revision := None;
  uri := "/rel/foo/" +:+ version_str v +:+ "/package.py";
  config := settings;
  num_variants := 1;
  iter_variants := [variant 0];
  format := λ _, Raise (Exc (Subclass "KeyError" Exception) "'qualified_nam'");
|}.

(** The same process with [ignore_existing_tag] set. *)
Definition with_ignore_existing_tag (self : BuildProcess version_t) :
    BuildProcess version_t := {|
  verbose := verbose self;
  working_dir := working_dir self;
  build_system := build_system self;
  vcs := vcs self;
  ensure_latest := ensure_latest self;
  skip_errors := skip_errors self;
  ignore_existing_tag := true;
  package := package self;
  hooks := hooks self;
  build_path := build_path self;
|}.

(** A package without variants: it counts none and iterates the one variant
    that has no index. *)
Definition foo_no_variants (v : version_t) : Package version_t := {|
  name := "foo";
  version := v;
  uuid := None;
  revision := None;
  uri := "/rel/foo/" +:+ version_str v +:+ "/package.py";
  config := settings;
  num_variants := 0;
  iter_variants := [{| index := None; requires := ["python"];
                        build_requires := []; private_build_requires := [] |}];
  format := λ _, Return ("foo-" +:+ version_str v);
|}.

(** A variant that requires nothing, which [resolver] fails to resolve. *)
Definition bare_variant : Variant := {|
  index := Some 0;
  requires := [];
  build_requires := [];
  private_build_requires := [];
|}.

(** Contexts that resolve with [resolver] and whose [save] fails with [e]. *)
Definition unsaved_contexts (e : exn) : ResolvedContextClass version_t := {|
  ResolvedContext_new := new_ResolvedContext resolver;
  print_info := context_print_info;
  save := λ _ _, raise e;
|}.

(** A world with an empty file system: the release path is missing. *)
Definition bare_world : World version_t := {|
  stdout := [];
  warnings := [];
  debug_log := [];
  filesystem := ∅;
  repositories := ∅;
  user := "ann";
|}.

(** The settings without a limit on the changelog. *)
Definition unlimited : Config := {|
  release_hooks := Some ["emailer"];
  build_directory := "build";
  packages_path := ["/local"; "/rel"];
  nonlocal_packages_path := ["/rel"];
  release_packages_path := "/rel";
  plugins_release_vcs := {| check_tag := true; tag_name := "{qualified_name}" |};
  max_package_changelog_chars := 0;
|}.

End Sample.

(** * Properties *)

(** Unfolds the monad operations in the goal and the hypotheses. *)
Ltac py_unfold :=
  unfold mbind, Py_bind, mret, Py_ret, raise, try_except, gets, modify in *.

(** Case analysis on the result of the first call a computation makes. *)
Ltac py_step :=
  match goal with
  | |- context [match ?m ?w with _ => _ end] =>
      let r := fresh "r" in
      let w' := fresh "w" in
      destruct (m w) as [[r|r] w'] eqn:?
  end.

Section Strings.

Lemma startswith_refl s : PyStr.startswith s s = true.
Proof.
  induction s as [|a s IH]; [done|].
  simpl. by rewrite Ascii.eqb_refl.
Qed.

Lemma contains_refl s : PyStr.contains s s = true.
Proof. destruct s; simpl; [done|]. by rewrite Ascii.eqb_refl, startswith_refl. Qed.

Lemma substring_0_0 s : String.substring 0 0 s = EmptyString.
Proof. by destruct s. Qed.

Lemma substring_0_length s : String.substring 0 (String.length s) s = s.
Proof. induction s as [|a s IH]; simpl; [done|]. by rewrite IH. Qed.

Lemma substring_split n s :
  (n ≤ String.length s)%nat →
  s = String.substring 0 n s +:+ String.substring n (String.length s - n) s.
Proof.
  revert s. induction n as [|n IH]; intros s Hn.
  - by rewrite Nat.sub_0_r, substring_0_0, substring_0_length.
  - destruct s as [|a s]; simpl in Hn; [lia|].
    change (String a s = String a
              (String.substring 0 n s
               +:+ String.substring n (String.length s - n) s)).
    f_equal. apply IH. lia.
Qed.

Lemma substring_length n s :
  (n ≤ String.length s)%nat → String.length (String.substring 0 n s) = n.
Proof.
  revert s. induction n as [|n IH]; intros [|a s] Hn; simpl in *; try done; try lia.
  f_equal. apply IH. lia.
Qed.

End Strings.

Section Properties.

Context {Version : Type} `{VersionOps Version}.

Local Abbreviation Py := (Py Version).
Local Abbreviation Package := (Package Version).
Local Abbreviation World := (World Version).
Local Abbreviation BuildProcess := (BuildProcess Version).

Lemma bind_run {A B} (m : Py A) (k : A → Py B) (w : World) :
  (m ≫= k) w = match m w with
               | (Return a, w') => k a w'
               | (Raise e, w') => (Raise e, w')
               end.
Proof. reflexivity. Qed.

Lemma ret_run {A} (a : A) (w : World) : (mret a : Py A) w = (Return a, w).
Proof. reflexivity. Qed.

(** Runs the binds and returns at the head of the goal. *)
Ltac py_run :=
  repeat (first [rewrite bind_run | rewrite ret_run]; cbn beta iota).

(** ** The factory *)

(** C10: for every process type the guard of [create_build_process] is dead.
    A string always contains itself, so [process_type not in process_type] is
    false, the "Unknown build process" error is never raised and the factory
    is the plugin lookup followed by the call of the class, whatever the
    process type. *)
Theorem create_build_process_guard_never_fires
    (plugin_manager : PluginManager Version)
    (process_type working_dir build_system : string)
    (vcs : option (ReleaseVCS Version))
    (ensure_latest skip_errors ignore_existing_tag verbose : bool) (w : World) :
  PyStr.contains process_type process_type = true ∧
  create_build_process plugin_manager process_type working_dir build_system vcs
    ensure_latest skip_errors ignore_existing_tag verbose w =
  (process_types ← get_build_process_types plugin_manager;
   cls ← get_plugin_class plugin_manager "build_process" process_type;
   cls working_dir build_system vcs ensure_latest skip_errors
     ignore_existing_tag verbose) w.
Proof.
  split; [apply contains_refl|].
  unfold create_build_process. rewrite contains_refl. simpl.
  py_unfold. by py_step.
Qed.

(** ** The scoped repository operation *)

Lemma repo_operation_return {A} (self : BuildProcess) (body : Py A) w a w' :
  body w = (Return a, w') →
  repo_operation self body w = (Return (Some a), w').
Proof. intros Hb. unfold repo_operation. py_unfold. by rewrite Hb. Qed.

Lemma repo_operation_skip {A} (self : BuildProcess) (body : Py A) w e w' :
  body w = (Raise e, w') →
  skip_errors self = true →
  isinstance e ReleaseVCSError = true →
  repo_operation self body w =
    (Return None,
     add_warning ("THE FOLLOWING ERROR WAS SKIPPED:" +:+ PyStr.NL +:+ exn_str e) w').
Proof.
  intros Hb Hs He. unfold repo_operation, print_warning. py_unfold.
  rewrite Hb, Hs. simpl. by rewrite He.
Qed.

Lemma repo_operation_propagate {A} (self : BuildProcess) (body : Py A) w e w' :
  body w = (Raise e, w') →
  skip_errors self = false ∨ isinstance e ReleaseVCSError = false →
  repo_operation self body w = (Raise e, w').
Proof.
  intros Hb Hs. unfold repo_operation. py_unfold. rewrite Hb.
  destruct Hs as [Hs | He]; [by rewrite Hs|].
  destruct (skip_errors self); simpl; [|done]. by rewrite He.
Qed.

(** C2: a call made inside [repo_operation] that raises [e].  With
    [skip_errors] and [e] a [ReleaseVCSError], the error is caught, one warning
    is printed and whatever follows the scope runs; without [skip_errors] the
    error propagates as it is; an error that is no [ReleaseVCSError]
    propagates whatever [skip_errors] is. *)
Theorem repo_operation_policy {A} (self : BuildProcess) (body : Py A)
    (w w' : World) (e : exn) :
  body w = (Raise e, w') →
  (skip_errors self = true → isinstance e ReleaseVCSError = true →
   let warned :=
     add_warning ("THE FOLLOWING ERROR WAS SKIPPED:" +:+ PyStr.NL +:+ exn_str e) w' in
   repo_operation self body w = (Return None, warned) ∧
   ∀ B (rest : option A → Py B),
     (r ← repo_operation self body; rest r) w = rest None warned) ∧
  (skip_errors self = false → repo_operation self body w = (Raise e, w')) ∧
  (isinstance e ReleaseVCSError = false →
   repo_operation self body w = (Raise e, w')).
Proof.
  intros Hb. split; [|split].
  - intros Hs He. pose proof (repo_operation_skip self body w e w' Hb Hs He) as Hr.
    split; [done|]. intros B rest. unfold mbind, Py_bind. by rewrite Hr.
  - intros Hs. apply repo_operation_propagate; auto.
  - intros He. apply repo_operation_propagate; auto.
Qed.

(** ** The build context *)

(** C9: [create_build_context] resolves a context for the variant, saves it
    to [os.path.join(build_path, "build.rxt")], that is
    [<build_path>/build.rxt], and only then looks at its status.  Once the
    save has returned, the call raises [BuildContextResolveError] carrying
    the context exactly when the status is not solved, and returns the
    context and the path otherwise; either way the world is the one the save
    left, so the file the save wrote is there.  A save that raises is what
    the call raises, whatever the status: the status had not been looked
    at. *)
Theorem create_build_context_saves_before_check
    (ResolvedContext_ : ResolvedContextClass Version) (self : BuildProcess)
    (variant : Variant) (build_type : BuildType) (build_path : string)
    (context : ResolvedContext) (saved : outcome unit) (w w1 w2 w3 : World) :
  let request := get_requires variant in
  let package_paths :=
    match build_type with
    | local => packages_path (config (package self))
    | central => nonlocal_packages_path (config (package self))
    end in
  let rxt_filepath := os_path_join build_path "build.rxt" in
  let r :=
    create_build_context ResolvedContext_ self variant build_type build_path w in
  ResolvedContext_new ResolvedContext_ request package_paths true
    (if verbose self
     then add_stdout ["Resolving build environment: "
                      +:+ PyStr.join " " request] w
     else w) = (Return context, w1) →
  (if verbose self then print_info ResolvedContext_ context else mret tt) w1
    = (Return tt, w2) →
  save ResolvedContext_ context rxt_filepath w2 = (saved, w3) →
  r.2 = w3 ∧
  (∀ node, filesystem w3 !! rxt_filepath = Some node →
           filesystem r.2 !! rxt_filepath = Some node) ∧
  (PyStr.truthy build_path = true →
   PyStr.endswith_char build_path "/" = false →
   rxt_filepath = build_path +:+ "/build.rxt") ∧
  (saved = Return tt →
   (ctx_status context = solved → r.1 = Return (context, rxt_filepath)) ∧
   (ctx_status context ≠ solved →
    r.1 = Raise (ExcContext BuildContextResolveError context)) ∧
   (r.1 = Raise (ExcContext BuildContextResolveError context) ↔
    ctx_status context ≠ solved)) ∧
  (∀ e, saved = Raise e → r.1 = Raise e).
Proof.
  intros request package_paths rxt_filepath r Hnew Hinfo Hsave.
  assert (r = match saved with
              | Return _ =>
                  if bool_decide (ctx_status context = solved)
                  then (Return (context, rxt_filepath), w3)
                  else (Raise (ExcContext BuildContextResolveError context), w3)
              | Raise e => (Raise e, w3)
              end) as Hr.
  { subst r. unfold create_build_context, _print, print.
    rewrite bind_run.
    assert ((if verbose self
             then modify (add_stdout ["Resolving build environment: "
                                      +:+ PyStr.join " " (get_requires variant)])
             else mret ()) w
            = (Return tt,
               if verbose self
               then add_stdout ["Resolving build environment: "
                                +:+ PyStr.join " " request] w
               else w)) as -> by by destruct (verbose self).
    cbn beta iota zeta. fold request package_paths.
    rewrite bind_run, Hnew. cbn beta iota.
    rewrite bind_run, Hinfo. cbn beta iota zeta. fold rxt_filepath.
    rewrite bind_run, Hsave.
    destruct saved as [[]|e]; [|done].
    by case_bool_decide. }
  rewrite Hr. split; [|split; [|split; [|split]]].
  - destruct saved; [by case_bool_decide|done].
  - intros node Hnode. destruct saved; [by case_bool_decide|done].
  - intros Ht He. subst rxt_filepath. unfold os_path_join. simpl.
    by rewrite Ht, He.
  - intros ->. case_bool_decide as Hst; simpl; repeat split; try done;
      try congruence.
  - by intros e ->.
Qed.

(** ** The variant walker *)

Lemma mapM_Py_length {A B} (f : A → Py B) l w rs w' :
  mapM f l w = (Return rs, w') → length rs = length l.
Proof.
  revert w rs. induction l as [|x l IH]; intros w rs; simpl; py_unfold.
  - by intros [= <- <-].
  - destruct (f x w) as [[y|e] w1]; [|done].
    destruct (mapM f l w1) as [[ys|e] w2] eqn:Hl; [|done].
    intros [= <- <-]. simpl. f_equal. by eapply IH.
Qed.

Lemma mapM_Py_ext {A B} (f g : A → Py B) l w :
  (∀ x w', f x w' = g x w') → mapM f l w = mapM g l w.
Proof.
  intros Hfg. revert w. induction l as [|x l IH]; intros w; [done|].
  cbn [mapM]. rewrite !bind_run, Hfg.
  destruct (g x w) as [[y|e] w1]; [|done].
  by rewrite !bind_run, IH.
Qed.

Lemma sorted_set_spec (s : gset Z) :
  Sorted Z.le (sorted_set s) ∧ NoDup (sorted_set s) ∧
  ∀ x, x ∈ sorted_set s ↔ x ∈ s.
Proof.
  unfold sorted_set. split; [|split].
  - apply (Sorted_merge_sort Z.le).
  - rewrite merge_sort_Permutation. apply NoDup_elements.
  - intros x. rewrite merge_sort_Permutation. apply elem_of_elements.
Qed.

Lemma invalid_variants_of_spec (variants : list Z) (n x : Z) :
  x ∈ invalid_variants_of variants (range n) ↔ x ∈ variants ∧ ¬ (0 ≤ x < n).
Proof.
  unfold invalid_variants_of, range.
  rewrite elem_of_difference, !elem_of_list_to_set, elem_of_seqZ.
  split; intros [? ?]; split; auto; lia.
Qed.

(** C4: a filter that holds an index outside [range(num_variants)] makes
    [visit_variants] raise the [BuildError] that lists the invalid indices, in
    ascending order and once each.  The world is left as it was and the result
    does not depend on the per-variant function: it is never called. *)
Theorem visit_variants_invalid_filter {R} (self : BuildProcess)
    (func : Variant → Py R) (variants : list Z) (i : Z) (w : World) :
  i ∈ variants →
  ¬ (0 ≤ i < num_variants (package self)) →
  ∃ invalid : list Z,
    visit_variants self func (Some variants) w =
      (Raise (Exc BuildError
                ("The package does not contain the variants: "
                 +:+ PyStr.join ", " (PyStr.of_int <$> invalid))), w) ∧
    (∀ x, x ∈ invalid ↔
          x ∈ variants ∧ ¬ (0 ≤ x < num_variants (package self))) ∧
    Sorted Z.le invalid ∧ NoDup invalid.
Proof.
  intros Hi Hout.
  exists (sorted_set (invalid_variants_of variants
                        (range (num_variants (package self))))).
  destruct (sorted_set_spec (invalid_variants_of variants
              (range (num_variants (package self))))) as (Hs & Hn & Hm).
  split; [|split; [|done]].
  - unfold visit_variants.
    assert (variants_truthy (Some variants) = true) as ->.
    { destruct variants; [by apply elem_of_nil in Hi|done]. }
    simpl. rewrite bool_decide_eq_false_2; [done|].
    intros Hempty.
    assert (i ∈ invalid_variants_of variants
                  (range (num_variants (package self)))) as Hin
      by by apply invalid_variants_of_spec.
    rewrite Hempty in Hin. by apply not_elem_of_empty in Hin.
  - intros x. rewrite Hm. apply invalid_variants_of_spec.
Qed.

Lemma print_header_skip (self : BuildProcess) (variant : Variant) (w : World) :
  _print_header self ("Skipping " +:+ _n_of_m self variant +:+ "...") 1 w =
    (Return tt, if verbose self then add_stdout (skip_header self variant) w else w).
Proof.
  unfold _print_header, _print, print, skip_header. py_unfold. simpl.
  destruct (verbose self); [|done].
  unfold add_stdout. simpl. by rewrite <- !app_assoc.
Qed.

(** The walk [visit_variants] makes once its filter is known to be valid:
    each variant in turn is skipped or handed to [func]. *)
Lemma for_in_visit {R} (self : BuildProcess) (func : Variant → Py R)
    (b : bool) (variants : option (list Z)) (vs : list Variant)
    (results : list R) (num_visited : Z) (w : World) :
  for_in vs (results, num_visited)
    (λ variant '(results, num_visited),
       if b && negb (index_in (index variant) variants)
       then
         _print_header self ("Skipping " +:+ _n_of_m self variant +:+ "...") 1;;
         mret (Next, (results, num_visited))
       else
         result ← func variant;
         mret (Next, (results ++ [result], num_visited + 1))) w =
  (rs ← mapM (λ variant,
          if b && negb (index_in (index variant) variants)
          then
            (if verbose self then modify (add_stdout (skip_header self variant))
             else mret tt);;
            mret None
          else result ← func variant; mret (Some result)) vs;
   mret (results ++ omap id rs,
         num_visited + Z.of_nat (length (omap id rs)))) w.
Proof.
  revert results num_visited w.
  induction vs as [|v vs IH]; intros results num_visited w.
  - simpl. rewrite !bind_run, !ret_run. simpl. by rewrite app_nil_r, Z.add_0_r.
  - cbn [for_in mapM]. rewrite !bind_run.
    destruct (b && negb (index_in (index v) variants)).
    + rewrite !bind_run, print_header_skip, ret_run. cbn [fst snd].
      rewrite IH, !bind_run.
      assert ((if verbose self then modify (add_stdout (skip_header self v))
               else mret ()) w
              = (Return tt, if verbose self
                            then add_stdout (skip_header self v) w else w)) as ->
        by by destruct (verbose self).
      rewrite ret_run, !bind_run.
      py_step; [|done]. by rewrite !ret_run.
    + rewrite !bind_run.
      destruct (func v w) as [[r|e] w1]; [|done].
      rewrite !ret_run. cbn [fst snd]. rewrite IH, !bind_run.
      py_step; [|done]. rewrite !ret_run. simpl.
      by rewrite <- app_assoc, Nat2Z.inj_succ, <- Z.add_1_l, Z.add_assoc.
Qed.

Lemma for_in_visit_all {R} (self : BuildProcess) (func : Variant → Py R)
    (variants : option (list Z)) (vs : list Variant)
    (results : list R) (num_visited : Z) (w : World) :
  for_in vs (results, num_visited)
    (λ variant '(results, num_visited),
       if false && negb (index_in (index variant) variants)
       then
         _print_header self ("Skipping " +:+ _n_of_m self variant +:+ "...") 1;;
         mret (Next, (results, num_visited))
       else
         result ← func variant;
         mret (Next, (results ++ [result], num_visited + 1))) w =
  (rs ← mapM func vs;
   mret (results ++ rs, num_visited + Z.of_nat (length rs))) w.
Proof.
  revert results num_visited w.
  induction vs as [|v vs IH]; intros results num_visited w.
  - simpl. rewrite !bind_run, !ret_run. simpl. by rewrite app_nil_r, Z.add_0_r.
  - cbn [for_in mapM andb]. rewrite !bind_run.
    destruct (func v w) as [[r|e] w1]; [|done].
    rewrite !ret_run. cbn [fst snd]. rewrite IH, !bind_run.
    py_step; [|done]. rewrite !ret_run. simpl.
    by rewrite <- app_assoc, Nat2Z.inj_succ, <- Z.add_1_l, Z.add_assoc.
Qed.

(** C5, as amended: with an empty or absent filter [visit_variants] calls
    [func] on every variant the package iterates, once each and in that
    order, collects the results in that order and counts as many visits as
    variants were iterated.  With a non-empty filter of valid indices the
    variants outside the filter are not handed to [func]; for each of them the
    four header lines are printed when [verbose] is set, and nothing is
    printed otherwise. *)
Theorem visit_variants_walk {R} (self : BuildProcess) (func : Variant → Py R)
    (variants : option (list Z)) (w : World) :
  Forall (λ i, 0 ≤ i < num_variants (package self)) (default [] variants) →
  (variants_truthy variants = false →
   visit_variants self func variants w =
     (rs ← mapM func (iter_variants (package self));
      mret (Z.of_nat (length (iter_variants (package self))), rs)) w) ∧
  (variants_truthy variants = true →
   visit_variants self func variants w =
     (rs ← mapM (λ variant,
            if index_in (index variant) variants
            then result ← func variant; mret (Some result)
            else
              (if verbose self
               then modify (add_stdout (skip_header self variant))
               else mret tt);;
              mret None) (iter_variants (package self));
      mret (Z.of_nat (length (omap id rs)), omap id rs)) w).
Proof.
  intros Hvalid. split.
  - intros Hf. unfold visit_variants. rewrite Hf. py_run.
    rewrite for_in_visit_all. py_run.
    destruct (mapM func (iter_variants (package self)) w) as [[rs|e] w1] eqn:Hm;
      [|done].
    rewrite !ret_run. simpl. apply mapM_Py_length in Hm. by rewrite Hm.
  - intros Ht. unfold visit_variants. rewrite Ht.
    assert (invalid_variants_of (default [] variants)
              (range (num_variants (package self))) = ∅) as ->.
    { apply set_eq. intros x. rewrite invalid_variants_of_spec.
      split; [|by intros ?%not_elem_of_empty].
      intros [Hx Hout]. rewrite Forall_forall in Hvalid. by apply Hvalid in Hx. }
    rewrite bool_decide_eq_true_2 by done. cbn [negb]. py_run.
    rewrite for_in_visit. py_run.
    rewrite (mapM_Py_ext _
      (λ variant,
         if index_in (index variant) variants
         then result ← func variant; mret (Some result)
         else
           (if verbose self
            then modify (add_stdout (skip_header self variant))
            else mret tt);;
           mret None)).
    + py_step; [|done]. by rewrite ?ret_run.
    + intros v w1. cbn [andb]. by destruct (index_in (index v) variants).
Qed.

(** ** The hook runner *)

Lemma run_hook_run (self : BuildProcess) ev kw hook e w :
  run_hook self ev kw hook e w =
  let w0 := hook_started ev hook w in
  match hook_callback hook (func_name ev) (user w0) kw w0 with
  | (Return _, w') => (Return (Next, e), w')
  | (Raise exc, w') =>
      if isinstance exc ReleaseHookCancellingError
      then (Raise (cancelled_error ev hook exc), w')
      else if isinstance exc RezError then
        match e with
        | Some e' =>
            (Return (Next, e),
             add_debug ("Error in " +:+ label ev +:+ " hook '"
                        +:+ hook_name hook +:+ "': "
                        +:+ class_name (exn_class e') +:+ ":" +:+ PyStr.NL
                        +:+ exn_str e') w')
        | None =>
            (Raise (Exc UnboundLocalError
                      "local variable 'e' referenced before assignment"), w')
        end
      else (Raise exc, w')
  end.
Proof.
  unfold run_hook, debug_print, getpass_getuser, hook_started, cancelled_error.
  py_unfold. cbn beta iota zeta.
  destruct (hook_callback _ _ _ _ _) as [[[]|exc] w']; [done|].
  destruct (isinstance exc ReleaseHookCancellingError); [done|].
  destruct (isinstance exc RezError); [|done]. by destruct e.
Qed.

Lemma run_hook_next (self : BuildProcess) ev kw hook e w r w' :
  run_hook self ev kw hook e w = (Return r, w') → r = (Next, e).
Proof.
  rewrite run_hook_run. cbn zeta.
  destruct (hook_callback _ _ _ _ _) as [[[]|exc] w1]; [by intros [= <- _]|].
  destruct (isinstance exc ReleaseHookCancellingError); [done|].
  destruct (isinstance exc RezError); [|done].
  destruct e; [by intros [= <- _]|done].
Qed.

Lemma run_hooks_loop_app (self : BuildProcess) ev kw pre rest e w :
  for_in (pre ++ rest) e (run_hook self ev kw) w =
  match for_in pre e (run_hook self ev kw) w with
  | (Return _, w1) => for_in rest e (run_hook self ev kw) w1
  | (Raise exc, w1) => (Raise exc, w1)
  end.
Proof.
  revert w. induction pre as [|h pre IH]; intros w; [done|].
  cbn [app for_in]. rewrite !bind_run.
  destruct (run_hook self ev kw h e w) as [[r|exc] w1] eqn:Hh; [|done].
  apply run_hook_next in Hh as ->. cbn [fst snd]. apply IH.
Qed.

(** What happens when the first hook to fail is [hook], with [exc]: the hooks
    before it returned, [hook] raised. *)
Lemma run_hooks_first_failure (self : BuildProcess) ev kw pre hook post
    w w1 w2 exc :
  hooks self = pre ++ hook :: post →
  run_hooks (with_hooks self pre) ev kw w = (Return tt, w1) →
  (let w0 := hook_started ev hook w1 in
   hook_callback hook (func_name ev) (user w0) kw w0 = (Raise exc, w2)) →
  run_hooks self ev kw w =
    if isinstance exc ReleaseHookCancellingError
    then (Raise (cancelled_error ev hook exc), w2)
    else if isinstance exc RezError
    then (Raise (Exc UnboundLocalError
                   "local variable 'e' referenced before assignment"), w2)
    else (Raise exc, w2).
Proof.
  intros Hh Hpre Hcb. unfold run_hooks in *. rewrite Hh.
  rewrite bind_run in Hpre. rewrite bind_run, run_hooks_loop_app.
  change (hooks (with_hooks self pre)) with pre in Hpre.
  change (run_hook (with_hooks self pre)) with (run_hook self) in Hpre.
  destruct (for_in pre None (run_hook self ev kw) w) as [[st|e] w1'];
    [|done].
  injection Hpre as <-.
  cbn [for_in]. rewrite bind_run, run_hook_run. cbn zeta in *. rewrite Hcb.
  destruct (isinstance exc ReleaseHookCancellingError); [done|].
  by destruct (isinstance exc RezError).
Qed.

(** C6: when the callback of a hook raises a [ReleaseHookCancellingError],
    [run_hooks] raises at once the [ReleaseError] that names the event (its
    noun and label), the hook and the original error (class and text).  No
    later hook runs, nothing sequenced after [run_hooks] runs, and the
    [skip_errors] setting of the process plays no part. *)
Theorem run_hooks_cancelling_hook_aborts (self : BuildProcess)
    (ev : ReleaseHookEvent) (kw : kwargs) (pre post : list (ReleaseHook Version))
    (hook : ReleaseHook Version) (w w1 w2 : World) (exc : exn) :
  hooks self = pre ++ hook :: post →
  run_hooks (with_hooks self pre) ev kw w = (Return tt, w1) →
  (let w0 := hook_started ev hook w1 in
   hook_callback hook (func_name ev) (user w0) kw w0 = (Raise exc, w2)) →
  isinstance exc ReleaseHookCancellingError = true →
  let err :=
    Exc ReleaseError
      (noun ev +:+ " cancelled by " +:+ label ev +:+ " hook '"
       +:+ hook_name hook +:+ "': " +:+ class_name (exn_class exc) +:+ ":"
       +:+ PyStr.NL +:+ exn_str exc) in
  run_hooks self ev kw w = (Raise err, w2) ∧
  (∀ post', run_hooks (with_hooks self (pre ++ hook :: post')) ev kw w
            = (Raise err, w2)) ∧
  (∀ B (rest : unit → Py B), (run_hooks self ev kw ≫= rest) w = (Raise err, w2)).
Proof.
  intros Hh Hpre Hcb Hc err.
  assert (run_hooks self ev kw w = (Raise err, w2)) as Hrun.
  { rewrite (run_hooks_first_failure self ev kw pre hook post w w1 w2 exc)
      by done. by rewrite Hc. }
  split; [done|]. split.
  - intros post'.
    rewrite (run_hooks_first_failure _ ev kw pre hook post' w w1 w2 exc);
      [by rewrite Hc|done|done|done].
  - intros B rest. by rewrite bind_run, Hrun.
Qed.

(** An ordinary failure of a hook: the handler of [RezError] reads the local
    variable [e], which it did not bind. *)
Lemma run_hooks_ordinary_failure (self : BuildProcess)
    (ev : ReleaseHookEvent) (kw : kwargs) (pre post : list (ReleaseHook Version))
    (hook : ReleaseHook Version) (w w1 w2 : World) (exc : exn) :
  hooks self = pre ++ hook :: post →
  run_hooks (with_hooks self pre) ev kw w = (Return tt, w1) →
  (let w0 := hook_started ev hook w1 in
   hook_callback hook (func_name ev) (user w0) kw w0 = (Raise exc, w2)) →
  isinstance exc ReleaseHookCancellingError = false →
  isinstance exc RezError = true →
  run_hooks self ev kw w =
    (Raise (Exc UnboundLocalError
              "local variable 'e' referenced before assignment"), w2).
Proof.
  intros Hh Hpre Hcb Hc Hr.
  rewrite (run_hooks_first_failure self ev kw pre hook post w w1 w2 exc) by done.
  by rewrite Hc, Hr.
Qed.

(** ** The release guard *)

Lemma released_packages_run (self : BuildProcess) (w : World) :
  ∃ it,
    iter_packages (name (package self))
      [release_packages_path (config (package self))] w = (Return it, w) ∧
    released_packages self w = (Return (sorted_by_version_reverse it), w).
Proof. eexists. split; reflexivity. Qed.

Lemma insert_by_version_perm (x : Package) (l : list Package) :
  insert_by_version x l ≡ₚ x :: l.
Proof.
  induction l as [|y l IH]; simpl; [done|].
  destruct (version_lt (version x) (version y)); [|done].
  rewrite IH. apply Permutation_swap.
Qed.

Lemma sorted_by_version_reverse_perm (it : list Package) :
  sorted_by_version_reverse it ≡ₚ it.
Proof.
  induction it as [|x it IH]; simpl; [done|].
  by rewrite insert_by_version_perm, IH.
Qed.

Lemma check_latest_run (self : BuildProcess) (packages : list Package) (w : World) :
  check_latest self packages w =
  if ensure_latest self then
    match packages with
    | [] => (Return tt, w)
    | first :: _ =>
        if version_gt (version first) (version (package self))
        then (Raise (Exc ReleaseError
                       ("Cannot release - a newer package version already exists ("
                        +:+ uri first +:+ ")")), w)
        else (Return tt, w)
    end
  else (Return tt, w).
Proof.
  unfold check_latest. destruct (ensure_latest self); [|done].
  destruct packages as [|first rest]; [done|].
  cbn [for_in]. rewrite bind_run.
  by destruct (version_gt (version first) (version (package self))).
Qed.

Lemma check_uuid_run (self : BuildProcess) (packages : list Package) (w : World) :
  check_uuid self packages w =
  match packages with
  | latest_package :: _ =>
      if uuid_truthy (uuid (package self)) && uuid_truthy (uuid latest_package)
         && negb (bool_decide (uuid latest_package = uuid (package self)))
      then (Raise (Exc ReleaseError
                     "Cannot release - the packages are not the same (UUID mismatch)"),
            w)
      else (Return tt, w)
  | [] => (Return tt, w)
  end.
Proof.
  unfold check_uuid. destruct packages as [|latest rest]; simpl.
  - by rewrite andb_false_r.
  - rewrite andb_true_r. destruct (uuid_truthy (uuid (package self))); [|done].
    simpl. by destruct (_ && _).
Qed.

Lemma pre_release_run (self : BuildProcess) (w w1 : World) packages :
  pre_release_repository_checks self w = (Return tt, w1) →
  released_packages self w1 = (Return packages, w1) →
  pre_release self w =
  match check_uuid self packages w1 with
  | (Return _, w2) => check_latest self packages w2
  | (Raise e, w2) => (Raise e, w2)
  end.
Proof.
  intros Hchecks Hrel. unfold pre_release.
  rewrite bind_run, Hchecks, bind_run, Hrel. by rewrite bind_run.
Qed.

(** C7: once the repository checks have passed, a current package and a
    latest released package (the first of the released ones, newest version
    first) that both declare a non-empty UUID, the two being different, make
    [pre_release] raise the UUID-mismatch [ReleaseError].  When either UUID is
    empty or absent, or nothing was released, the check passes and
    [pre_release] goes on with the version check. *)
Theorem pre_release_uuid_check (self : BuildProcess) (w w1 : World)
    (packages : list Package) :
  pre_release_repository_checks self w = (Return tt, w1) →
  released_packages self w1 = (Return packages, w1) →
  (∀ a b latest_package rest,
     uuid (package self) = Some a → PyStr.truthy a = true →
     packages = latest_package :: rest →
     uuid latest_package = Some b → PyStr.truthy b = true →
     a ≠ b →
     pre_release self w =
       (Raise (Exc ReleaseError
                 "Cannot release - the packages are not the same (UUID mismatch)"),
        w1)) ∧
  (uuid_truthy (uuid (package self)) = false ∨
   packages = [] ∨
   (∃ latest_package rest,
      packages = latest_package :: rest ∧
      uuid_truthy (uuid latest_package) = false) →
   check_uuid self packages w1 = (Return tt, w1) ∧
   pre_release self w = check_latest self packages w1).
Proof.
  intros Hchecks Hrel. split.
  - intros a b latest rest Ha Hta -> Hb Htb Hab.
    rewrite (pre_release_run self w w1 _ Hchecks Hrel), check_uuid_run.
    rewrite Ha, Hb. simpl. rewrite Hta, Htb. simpl.
    rewrite bool_decide_eq_false_2; [done|]. congruence.
  - intros Hpass.
    assert (check_uuid self packages w1 = (Return tt, w1)) as Hu.
    { rewrite check_uuid_run. destruct packages as [|latest rest]; [done|].
      destruct Hpass as [-> | [? | (l & r & [= <- <-] & ->)]]; [done|done|].
      by rewrite andb_false_r. }
    split; [done|].
    by rewrite (pre_release_run self w w1 _ Hchecks Hrel), Hu.
Qed.

Section Ordered.

Context `{!VersionOrder Version}.

Lemma version_lt_asym (a b : Version) :
  version_lt a b = true → version_lt b a = false.
Proof.
  intros Hab. destruct (version_lt b a) eqn:Hba; [|done].
  pose proof (version_lt_trans _ _ _ Hab Hba) as Haa.
  by rewrite version_lt_irrefl in Haa.
Qed.

Lemma version_not_lt_trans (a b c : Version) :
  version_lt a b = false → version_lt b c = false → version_lt a c = false.
Proof.
  intros Hab Hbc. destruct (version_lt a c) eqn:Hac; [|done].
  destruct (version_lt_cotrans _ _ b Hac); congruence.
Qed.

(** Newest first: no package has a smaller version than a later one. *)
Lemma insert_by_version_sorted (x : Package) (l : list Package) :
  StronglySorted (λ p q, version_lt (version p) (version q) = false) l →
  StronglySorted (λ p q, version_lt (version p) (version q) = false)
    (insert_by_version x l).
Proof.
  induction 1 as [|y l Hl IH Hy]; simpl.
  - repeat constructor.
  - destruct (version_lt (version x) (version y)) eqn:Hxy.
    + constructor; [done|].
      rewrite insert_by_version_perm. constructor; [|done].
      by apply version_lt_asym.
    + constructor; [by constructor|].
      constructor; [done|].
      eapply Forall_impl; [exact Hy|]. intros q Hq. simpl in Hq.
      by eapply version_not_lt_trans.
Qed.

Lemma sorted_by_version_reverse_sorted (it : list Package) :
  StronglySorted (λ p q, version_lt (version p) (version q) = false)
    (sorted_by_version_reverse it).
Proof.
  induction it as [|x it IH]; simpl; [constructor|].
  by apply insert_by_version_sorted.
Qed.

(** The first of the sorted packages has a version above [v] as soon as any
    package has. *)
Lemma sorted_head_newest (v : Version) (first p : Package) (rest : list Package) :
  StronglySorted (λ p q, version_lt (version p) (version q) = false)
    (first :: rest) →
  p ∈ first :: rest →
  version_gt (version p) v = true →
  version_gt (version first) v = true.
Proof.
  intros Hs Hp Hgt. apply StronglySorted_inv in Hs as [_ Hfirst].
  apply elem_of_cons in Hp as [-> | Hp]; [done|].
  rewrite Forall_forall in Hfirst. specialize (Hfirst _ Hp).
  unfold version_gt in *.
  destruct (version_lt_cotrans _ _ (version first) Hgt); congruence.
Qed.

(** C3: once the repository checks and the UUID check have passed, the
    released packages are held newest version first.  With [ensure_latest],
    if any of them has a version strictly greater than the current one then
    so has the first, and [pre_release] raises the [ReleaseError] citing its
    [uri]; if none has, [pre_release] returns; the scan never goes past a
    first package that is not strictly greater.  Without [ensure_latest]
    [pre_release] returns whatever was released. *)
Theorem pre_release_ensure_latest (self : BuildProcess) (w w1 : World)
    (packages : list Package) :
  pre_release_repository_checks self w = (Return tt, w1) →
  released_packages self w1 = (Return packages, w1) →
  check_uuid self packages w1 = (Return tt, w1) →
  let current := version (package self) in
  (∃ it,
     iter_packages (name (package self))
       [release_packages_path (config (package self))] w1 = (Return it, w1) ∧
     packages ≡ₚ it) ∧
  StronglySorted (λ p q, version_lt (version p) (version q) = false) packages ∧
  (ensure_latest self = true →
   ((∃ p, p ∈ packages ∧ version_gt (version p) current = true) →
    ∃ newest rest,
      packages = newest :: rest ∧
      version_gt (version newest) current = true ∧
      pre_release self w =
        (Raise (Exc ReleaseError
                  ("Cannot release - a newer package version already exists ("
                   +:+ uri newest +:+ ")")), w1)) ∧
   ((∀ p, p ∈ packages → version_gt (version p) current = false) →
    pre_release self w = (Return tt, w1)) ∧
   (∀ first rest,
      version_gt (version first) current = false →
      check_latest self (first :: rest) w1 = (Return tt, w1))) ∧
  (ensure_latest self = false → pre_release self w = (Return tt, w1)).
Proof.
  intros Hchecks Hrel Huuid current.
  pose proof (pre_release_run self w w1 _ Hchecks Hrel) as Hrun.
  rewrite Huuid, check_latest_run in Hrun.
  destruct (released_packages_run self w1) as (it & Hit & Hsorted).
  rewrite Hrel in Hsorted. injection Hsorted as ->.
  split; [|split; [|split]].
  - exists it. split; [done|]. apply sorted_by_version_reverse_perm.
  - apply sorted_by_version_reverse_sorted.
  - intros He. rewrite He in Hrun. split; [|split].
    + intros (p & Hp & Hgt).
      destruct (sorted_by_version_reverse it) as [|newest rest] eqn:Hs;
        [by apply elem_of_nil in Hp|].
      exists newest, rest. split; [done|].
      assert (version_gt (version newest) current = true) as Hn.
      { eapply sorted_head_newest; [|exact Hp|exact Hgt].
        rewrite <- Hs. apply sorted_by_version_reverse_sorted. }
      split; [done|]. fold current in Hrun. by rewrite Hn in Hrun.
    + intros Hnone.
      destruct (sorted_by_version_reverse it) as [|first rest]; [done|].
      fold current in Hrun. rewrite Hnone in Hrun; [done|]. apply elem_of_cons; by left.
    + intros first rest Hf. rewrite check_latest_run, He.
      fold current. by rewrite Hf.
  - intros He. by rewrite He in Hrun.
Qed.

End Ordered.

(** ** The release data *)

Lemma get_previous_release_run (self : BuildProcess) (w : World) :
  ∃ previous_package, get_previous_release self w = (Return previous_package, w).
Proof. eexists. reflexivity. Qed.

Lemma truthy_len (s : string) : PyStr.truthy s = true ↔ 0 < PyStr.len s.
Proof. unfold PyStr.len. destruct s; simpl; split; (done || lia). Qed.

(** C8, as amended: with a positive limit [maxlen], a changelog of more than
    [maxlen + 3] characters is replaced by its first [maxlen] characters
    followed by the three characters "..."; a changelog of at most
    [maxlen + 3] characters is returned as the adapter gave it. *)
Theorem get_release_data_changelog (global_config : Config) (self : BuildProcess)
    (vcs_ : ReleaseVCS Version) (previous_package : option Package)
    (revision_ : option Revision) (changelog : string) (w w1 w2 : World) :
  vcs self = Some vcs_ →
  get_previous_release self w = (Return previous_package, w) →
  repo_operation self (get_current_revision vcs_) w = (Return revision_, w1) →
  get_changelog vcs_ (previous_package ≫= revision) w1 = (Return changelog, w2) →
  let maxlen := max_package_changelog_chars global_config in
  0 < maxlen →
  ∃ data : ReleaseData,
    get_release_data global_config self w = (Return data, w2) ∧
    (maxlen + 3 < PyStr.len changelog →
     ∃ first_chars rest,
       changelog = first_chars +:+ rest ∧
       PyStr.len first_chars = maxlen ∧
       rd_changelog data = Some (first_chars +:+ "...")) ∧
    (PyStr.len changelog ≤ maxlen + 3 → rd_changelog data = Some changelog).
Proof.
  intros Hvcs Hprev Hrev Hlog maxlen Hmax.
  pose proof (repo_operation_return self _ _ _ _ Hlog) as Hlog'.
  unfold get_release_data, assert_vcs.
  rewrite bind_run, Hprev, Hvcs. py_run. rewrite Hrev. py_run.
  rewrite Hlog'. py_run.
  eexists. split; [reflexivity|]. cbn [rd_changelog default from_option id changelog_truthy].
  fold maxlen.
  assert (negb (maxlen =? 0) = true) as ->
    by (apply negb_true_iff, Z.eqb_neq; lia).
  cbn [andb]. split.
  - intros Hlong.
    assert (PyStr.truthy changelog = true) as -> by (apply truthy_len; lia).
    assert ((PyStr.len changelog >? maxlen + 3) = true) as ->
      by (apply Z.gtb_lt; lia).
    cbn [andb]. unfold PyStr.slice_to.
    assert ((maxlen <? 0) = false) as -> by (apply Z.ltb_ge; lia).
    unfold PyStr.len in *.
    exists (String.substring 0 (Z.to_nat maxlen) changelog),
      (String.substring (Z.to_nat maxlen)
         (String.length changelog - Z.to_nat maxlen) changelog).
    split; [apply substring_split; lia|].
    split; [rewrite substring_length; lia|done].
  - intros Hshort.
    assert ((PyStr.len changelog >? maxlen + 3) = false) as ->
      by (rewrite Z.gtb_ltb; apply Z.ltb_ge; lia).
    by rewrite andb_false_r.
Qed.

End Properties.

(** * The properties on the sample package *)

Section SampleProperties.

Import Sample.

Global Instance version_order : VersionOrder version_t.
Proof.
  split.
  - intros [a1 a2]. apply not_true_iff_false.
    cbn [version_lt version_ops fst snd].
    rewrite orb_true_iff, andb_true_iff, !Nat.ltb_lt, Nat.eqb_eq. lia.
  - intros [a1 a2] [b1 b2] [c1 c2]. cbn [version_lt version_ops fst snd].
    rewrite !orb_true_iff, !andb_true_iff, !Nat.ltb_lt, !Nat.eqb_eq. lia.
  - intros [a1 a2] [b1 b2] [c1 c2]. cbn [version_lt version_ops fst snd].
    rewrite !orb_true_iff, !andb_true_iff, !Nat.ltb_lt, !Nat.eqb_eq. lia.
Qed.

(** C1: an ordinary hook error is not logged and skipped.  With the hooks
    [a], [h] and [later], where the callback of [h] raises a plain
    [RezError], [run_hooks] leaves with an [UnboundLocalError]: nothing about
    the error reaches the debug log and [later] is never called. *)
Theorem run_hooks_ordinary_error_aborts :
  let self :=
    process (foo (1, 5)%nat None 1) (Some (git "fixes"))
      [hook "a" None; hook "h" (Some (Exc RezError "boom")); hook "later" None]
      true false false in
  let r := run_hooks self pre_release_event [] (world []) in
  isinstance (Exc RezError "boom") RezError = true ∧
  isinstance (Exc RezError "boom") ReleaseHookCancellingError = false ∧
  r.1 = Raise (Exc UnboundLocalError
                 "local variable 'e' referenced before assignment") ∧
  stdout r.2 = ["a.pre_release called by ann"; "h.pre_release called by ann"] ∧
  debug_log r.2 = ["Running pre-release hook 'a'...";
                   "Running pre-release hook 'h'..."].
Proof. vm_compute. by repeat split. Qed.

(** The scoped operation on an adapter whose calls fail. *)
Lemma repo_operation_policy_witness :
  let e := Exc ReleaseVCSError "repository is dirty" in
  let other := Exc BuildError "not a repository error" in
  let skipping := process (foo (1, 5)%nat None 1) None [] true true false in
  let strict := process (foo (1, 5)%nat None 1) None [] true false false in
  repo_operation skipping (validate_repostate (broken_vcs e)) (world []) =
    (Return None,
     add_warning ("THE FOLLOWING ERROR WAS SKIPPED:" +:+ PyStr.NL
                  +:+ "repository is dirty") (world [])) ∧
  repo_operation strict (validate_repostate (broken_vcs e)) (world []) =
    (Raise e, world []) ∧
  repo_operation skipping (validate_repostate (broken_vcs other)) (world []) =
    (Raise other, world []).
Proof.
  intros e other skipping strict. split; [|split].
  - exact (proj1 (proj1 (repo_operation_policy skipping
                           (validate_repostate (broken_vcs e))
                           (world []) (world []) e eq_refl) eq_refl eq_refl)).
  - exact (proj1 (proj2 (repo_operation_policy strict
                           (validate_repostate (broken_vcs e))
                           (world []) (world []) e eq_refl)) eq_refl).
  - exact (proj2 (proj2 (repo_operation_policy skipping
                           (validate_repostate (broken_vcs other))
                           (world []) (world []) other eq_refl)) eq_refl).
Defined.

(** Releasing 1.5 when 1.0 and 2.0 are released. *)
Lemma pre_release_ensure_latest_witness :
  let released := [foo (1, 0)%nat None 1; foo (2, 0)%nat None 1] in
  let guarded :=
    process (foo (1, 5)%nat None 1) (Some (git "fixes")) [] true false false in
  let unguarded :=
    process (foo (1, 5)%nat None 1) (Some (git "fixes")) [] false false false in
  pre_release guarded (world released) =
    (Raise (Exc ReleaseError
              ("Cannot release - a newer package version already exists ("
               +:+ "/rel/foo/2.0/package.py" +:+ ")")), world released) ∧
  pre_release unguarded (world released) = (Return tt, world released).
Proof.
  intros released guarded unguarded.
  set (packages := [foo (2, 0)%nat None 1; foo (1, 0)%nat None 1]).
  split.
  - assert (pre_release_repository_checks guarded (world released)
            = (Return tt, world released)) as Hchecks by reflexivity.
    assert (released_packages guarded (world released)
            = (Return packages, world released)) as Hrel
      by (vm_compute; reflexivity).
    assert (check_uuid guarded packages (world released)
            = (Return tt, world released)) as Huuid by reflexivity.
    destruct (pre_release_ensure_latest guarded (world released) (world released)
                packages Hchecks Hrel Huuid) as (_ & _ & Hlatest & _).
    destruct (Hlatest eq_refl) as (Hnewer & _ & _).
    destruct Hnewer as (newest & rest & Hp & _ & Hraise).
    + exists (foo (2, 0)%nat None 1). split; [|reflexivity].
      apply elem_of_cons. by left.
    + injection Hp as <- <-. exact Hraise.
  - assert (pre_release_repository_checks unguarded (world released)
            = (Return tt, world released)) as Hchecks by reflexivity.
    assert (released_packages unguarded (world released)
            = (Return packages, world released)) as Hrel
      by (vm_compute; reflexivity).
    assert (check_uuid unguarded packages (world released)
            = (Return tt, world released)) as Huuid by reflexivity.
    destruct (pre_release_ensure_latest unguarded (world released) (world released)
                packages Hchecks Hrel Huuid) as (_ & _ & _ & Hoff).
    exact (Hoff eq_refl).
Defined.

(** A filter naming the variants 7 and -2 of a package of three variants. *)
Lemma visit_variants_invalid_filter_witness :
  let self := process (foo (1, 5)%nat None 3) None [] true false false in
  ∃ invalid : list Z,
    visit_variants self build_variant (Some [0; 7; -2; 7; 1]) (world []) =
      (Raise (Exc BuildError
                ("The package does not contain the variants: "
                 +:+ PyStr.join ", " (PyStr.of_int <$> invalid))), world []) ∧
    (∀ x, x ∈ invalid ↔
          x ∈ [0; 7; -2; 7; 1] ∧ ¬ (0 ≤ x < num_variants (package self))) ∧
    Sorted Z.le invalid ∧ NoDup invalid.
Proof.
  intros self.
  apply (visit_variants_invalid_filter self build_variant [0; 7; -2; 7; 1] 7).
  - apply elem_of_cons. right. apply elem_of_cons. by left.
  - simpl. lia.
Defined.

(** C5 fails as stated, on two counts.  With [verbose] off (the default), a
    variant left out by the filter is skipped without any progress header: of
    the two variants only the first is built and nothing else is printed.
    And a package without variants counts none ([num_variants] is 0) but
    iterates one variant, which has no index: it is visited, and the count
    is 1. *)
Lemma visit_variants_skip_not_reported :
  (let self := process (foo (1, 5)%nat None 2) None [] true false false in
   let r := visit_variants self build_variant (Some [0]) (world []) in
   r.1 = Return (1, ["built 0"]) ∧
   stdout r.2 = ["built 0"] ∧
   ¬ (∃ line, line ∈ stdout r.2 ∧ PyStr.contains line "Skipping" = true)) ∧
  (let self := process (foo_no_variants (1, 5)%nat) None [] true false false in
   let r := visit_variants self build_variant None (world []) in
   num_variants (package self) = 0 ∧
   index <$> iter_variants (package self) = [None] ∧
   r.1 = Return (1, ["built -1"])).
Proof.
  split.
  - vm_compute. split; [done|]. split; [done|].
    intros (line & Hline & Hskip).
    apply list_elem_of_singleton in Hline as ->. vm_compute in Hskip. done.
  - vm_compute. by repeat split.
Qed.

(** Walking three variants, with no filter and with the filter [2, 0] in
    verbose mode, and walking a package without variants. *)
Lemma visit_variants_walk_witness :
  let quiet := process (foo (1, 5)%nat None 3) None [] true false false in
  let chatty := process (foo (1, 5)%nat None 3) None [] true false true in
  let single := process (foo_no_variants (1, 5)%nat) None [] true false false in
  visit_variants quiet build_variant None (world []) =
    (Return (3, ["built 0"; "built 1"; "built 2"]),
     add_stdout ["built 0"; "built 1"; "built 2"] (world [])) ∧
  visit_variants chatty build_variant (Some [2; 0]) (world []) =
    (Return (2, ["built 0"; "built 2"]),
     add_stdout (["built 0"] ++ skip_header chatty (variant 1) ++ ["built 2"])
       (world [])) ∧
  visit_variants single build_variant None (world []) =
    (Return (1, ["built -1"]), add_stdout ["built -1"] (world [])).
Proof.
  intros quiet chatty single. split; [|split].
  - destruct (visit_variants_walk quiet build_variant None (world []))
      as (Hall & _); [constructor|].
    rewrite (Hall eq_refl). reflexivity.
  - destruct (visit_variants_walk chatty build_variant (Some [2; 0]) (world []))
      as (_ & Hsome).
    { repeat constructor; simpl; lia. }
    rewrite (Hsome eq_refl). vm_compute. reflexivity.
  - destruct (visit_variants_walk single build_variant None (world []))
      as (Hall & _); [constructor|].
    rewrite (Hall eq_refl). reflexivity.
Defined.

(** The hook [h] vetoes the release between the hooks [a] and [later]. *)
Lemma run_hooks_cancelling_hook_aborts_witness :
  let veto := Exc ReleaseHookCancellingError "frozen" in
  let self :=
    process (foo (1, 5)%nat None 1) (Some (git "fixes"))
      [hook "a" None; hook "h" (Some veto); hook "later" None]
      true true false in
  let stopped :=
    add_stdout ["h.pre_release called by ann"]
      (add_debug "Running pre-release hook 'h'..."
         (add_stdout ["a.pre_release called by ann"]
            (add_debug "Running pre-release hook 'a'..." (world [])))) in
  run_hooks self pre_release_event [] (world []) =
    (Raise (Exc ReleaseError
              ("release cancelled by pre-release hook 'h': "
               +:+ "ReleaseHookCancellingError:" +:+ PyStr.NL +:+ "frozen")),
     stopped).
Proof.
  intros veto self stopped.
  refine (proj1 (run_hooks_cancelling_hook_aborts self pre_release_event []
                   [hook "a" None] [hook "later" None] (hook "h" (Some veto))
                   (world [])
                   (add_stdout ["a.pre_release called by ann"]
                      (add_debug "Running pre-release hook 'a'..." (world [])))
                   stopped veto _ _ _ _)); reflexivity.
Defined.

(** Releasing a package whose UUID differs from that of the latest release,
    and one whose latest release declares none. *)
Lemma pre_release_uuid_check_witness :
  let mine := process (foo (1, 5)%nat (Some "A") 1) (Some (git "fixes")) []
                false false false in
  let theirs := [foo (1, 0)%nat (Some "B") 1] in
  let untagged := [foo (1, 0)%nat None 1] in
  pre_release mine (world theirs) =
    (Raise (Exc ReleaseError
              "Cannot release - the packages are not the same (UUID mismatch)"),
     world theirs) ∧
  pre_release mine (world untagged) = (Return tt, world untagged).
Proof.
  intros mine theirs untagged. split.
  - assert (released_packages mine (world theirs)
            = (Return theirs, world theirs)) as Hrel
      by (vm_compute; reflexivity).
    refine (proj1 (pre_release_uuid_check mine (world theirs) (world theirs)
                     theirs eq_refl Hrel)
              "A" "B" (foo (1, 0)%nat (Some "B") 1) [] eq_refl eq_refl eq_refl
              eq_refl eq_refl _).
    discriminate.
  - assert (released_packages mine (world untagged)
            = (Return untagged, world untagged)) as Hrel
      by (vm_compute; reflexivity).
    destruct (proj2 (pre_release_uuid_check mine (world untagged)
                       (world untagged) untagged eq_refl Hrel)) as [_ Hgo].
    + right. right. by exists (foo (1, 0)%nat None 1), [].
    + rewrite Hgo. reflexivity.
Defined.

(** C8 fails as stated: with a limit of 5 characters, a changelog of 7
    characters is longer than the limit and yet is returned whole. *)
Lemma get_release_data_short_excess_kept :
  let self := process (foo (1, 5)%nat None 1) (Some (git "abcdefg")) []
                true false false in
  let r := get_release_data settings self (world []) in
  max_package_changelog_chars settings = 5 ∧
  5 < PyStr.len "abcdefg" ∧
  r.1 = Return {| rd_vcs := "git"; rd_revision := Some "abc123";
                  rd_changelog := Some "abcdefg";
                  rd_previous_version := None;
                  rd_previous_revision := None |} ∧
  PyStr.slice_to "abcdefg" 5 +:+ "..." = "abcde..." ∧
  "abcdefg" ≠ "abcde...".
Proof. vm_compute. by repeat split. Qed.

(** Changelogs of 9 and of 8 characters under a limit of 5. *)
Lemma get_release_data_changelog_witness :
  let long := process (foo (1, 5)%nat None 1) (Some (git "abcdefghi")) []
                true false false in
  let short := process (foo (1, 5)%nat None 1) (Some (git "abcdefgh")) []
                 true false false in
  (∃ data, get_release_data settings long (world []) = (Return data, world []) ∧
           rd_changelog data = Some "abcde...") ∧
  (∃ data, get_release_data settings short (world []) = (Return data, world []) ∧
           rd_changelog data = Some "abcdefgh").
Proof.
  intros long short. split.
  - destruct (get_release_data_changelog settings long (git "abcdefghi") None
                (Some "abc123") "abcdefghi" (world []) (world []) (world [])
                eq_refl eq_refl eq_refl eq_refl) as (data & Hrun & Hlong & _);
      [done|].
    exists data. split; [exact Hrun|].
    destruct Hlong as (first_chars & rest & Hsplit & Hlen & ->); [done|].
    assert (String.length first_chars = 5%nat) as Hfive
      by (unfold PyStr.len in Hlen; cbn in Hlen; lia).
    do 5 (destruct first_chars as [|? first_chars]; [done|]).
    destruct first_chars; [|done].
    by injection Hsplit as <- <- <- <- <-.
  - destruct (get_release_data_changelog settings short (git "abcdefgh") None
                (Some "abc123") "abcdefgh" (world []) (world []) (world [])
                eq_refl eq_refl eq_refl eq_refl) as (data & Hrun & _ & Hshort);
      [done|].
    exists data. split; [exact Hrun|]. by apply Hshort.
Defined.
(** Build contexts for a variant that resolves and for one that does not,
    and for one that resolves but cannot be saved. *)
Lemma create_build_context_saves_before_check_witness :
  let self := process (foo (1, 5)%nat None 1) None [] true false false in
  let good := {| ctx_request := ["python"; "cmake"];
                 ctx_package_paths := ["/local"; "/rel"];
                 ctx_building := true;
                 ctx_status := solved;
                 ctx_info := ["resolved"] |} in
  let bad := {| ctx_request := [];
                ctx_package_paths := ["/rel"];
                ctx_building := true;
                ctx_status := failed;
                ctx_info := ["nothing to resolve"] |} in
  let rxt := "/src/foo/build/build.rxt" in
  let full := Exc (Subclass "IOError" Exception) "No space left on device" in
  create_build_context (resolved_contexts resolver) self (variant 0) local
    "/src/foo/build" (world []) =
    (Return (good, rxt), write_file rxt (ContextFile good) (world [])) ∧
  create_build_context (resolved_contexts resolver) self bare_variant central
    "/src/foo/build" (world []) =
    (Raise (ExcContext BuildContextResolveError bad),
     write_file rxt (ContextFile bad) (world [])) ∧
  filesystem
    (create_build_context (resolved_contexts resolver) self bare_variant central
       "/src/foo/build" (world [])).2 !! rxt = Some (ContextFile bad) ∧
  create_build_context (unsaved_contexts full) self bare_variant central
    "/src/foo/build" (world []) = (Raise full, world []).
Proof.
  intros self good bad rxt full.
  destruct (create_build_context_saves_before_check (resolved_contexts resolver)
              self (variant 0) local "/src/foo/build" good (Return tt)
              (world []) (world []) (world [])
              (write_file rxt (ContextFile good) (world []))
              eq_refl eq_refl eq_refl) as (Hw & _ & _ & Hsaved & _).
  destruct (Hsaved eq_refl) as (Hsolved & _ & _).
  destruct (create_build_context_saves_before_check (resolved_contexts resolver)
              self bare_variant central "/src/foo/build" bad (Return tt)
              (world []) (world []) (world [])
              (write_file rxt (ContextFile bad) (world []))
              eq_refl eq_refl eq_refl) as (Hw' & Hfile & _ & Hsaved' & _).
  destruct (Hsaved' eq_refl) as (_ & Hfailed & _).
  destruct (create_build_context_saves_before_check (unsaved_contexts full)
              self bare_variant central "/src/foo/build" bad (Raise full)
              (world []) (world []) (world []) (world [])
              eq_refl eq_refl eq_refl) as (Hw'' & _ & _ & _ & Hraise).
  split; [|split; [|split]].
  - apply injective_projections; [exact (Hsolved eq_refl)|exact Hw].
  - apply injective_projections; [|exact Hw'].
    apply Hfailed. discriminate.
  - apply Hfile. reflexivity.
  - apply injective_projections; [exact (Hraise full eq_refl)|exact Hw''].
Defined.

(** With [skip_errors], an adapter that fails with a [ReleaseVCSError] on
    every call does not stop [pre_release]: the two failures show as warnings
    only.  Without it the first failure is raised. *)
Lemma pre_release_skips_repository_errors :
  let e := Exc ReleaseVCSError "repository is dirty" in
  let skipping :=
    process (foo (1, 5)%nat None 1) (Some (broken_vcs e)) [] true true false in
  let strict :=
    process (foo (1, 5)%nat None 1) (Some (broken_vcs e)) [] true false false in
  let warning :=
    "THE FOLLOWING ERROR WAS SKIPPED:" +:+ PyStr.NL +:+ "repository is dirty" in
  pre_release skipping (world []) =
    (Return tt, add_warning warning (add_warning warning (world []))) ∧
  pre_release strict (world []) = (Raise e, world []).
Proof. split; vm_compute; reflexivity. Qed.

End SampleProperties.

(** * Further properties of the build process *)

Section MoreProperties.

Context {Version : Type} `{VersionOps Version}.

Local Abbreviation Py := (Py Version).
Local Abbreviation Package := (Package Version).
Local Abbreviation World := (World Version).
Local Abbreviation BuildProcess := (BuildProcess Version).

(** Runs the computation at the head of the goal step by step. *)
Ltac py_eval :=
  repeat (first [rewrite bind_run | rewrite ret_run]; cbn beta iota).

(** ** Tag names *)

Lemma get_current_tag_name_run (self : BuildProcess) (w : World) :
  get_current_tag_name self w =
  match format (package self)
          (tag_name (plugins_release_vcs (config (package self)))) with
  | Return s => (Return (if PyStr.truthy s then s else "unversioned"), w)
  | Raise e =>
      (Raise (Exc ReleaseError
                ("Error formatting release tag name: " +:+ exn_str e)), w)
  end.
Proof.
  unfold get_current_tag_name. rewrite bind_run.
  destruct (format _ _) as [s|e]; [|done].
  rewrite ret_run. cbn beta iota. by destruct (PyStr.truthy s).
Qed.


(** ** The release guard, before the package checks *)

(** [pre_release] up to the repository check, once the release path is there
    and an adapter is bound. *)
Lemma repository_checks_run (self : BuildProcess) (v : ReleaseVCS Version)
    (w : World) :
  is_Some (filesystem w !! release_packages_path (config (package self))) →
  vcs self = Some v →
  pre_release_repository_checks self w =
  match repo_operation self (validate_repostate v)
          (if verbose self
           then add_stdout ["Checking state of repository..."] w else w) with
  | (Return _, w1) =>
      if check_tag (plugins_release_vcs (config (package self)))
         && negb (ignore_existing_tag self)
      then
        match get_current_tag_name self w1 with
        | (Return tag, w2) =>
            match repo_operation self (tag_exists v tag) w2 with
            | (Return r, w3) =>
                if default false r
                then (Raise (Exc ReleaseError
                       ("Cannot release - the current package version '"
                        +:+ version_str (version (package self))
                        +:+ "' is already tagged in the repository. "
                        +:+ "Use --ignore-existing-tag to force the release")),
                      w3)
                else (Return tt, w3)
            | (Raise e, w3) => (Raise e, w3)
            end
        | (Raise e, w2) => (Raise e, w2)
        end
      else (Return tt, w1)
  | (Raise e, w1) => (Raise e, w1)
  end.
Proof.
  intros Hpath Hvcs. unfold pre_release_repository_checks, os_path_exists,
    assert_vcs, _print, print.
  rewrite bind_run. unfold gets at 1. cbn beta iota.
  rewrite bool_decide_eq_true_2 by done. cbn [negb]. py_eval.
  rewrite Hvcs. py_eval.
  assert ((if verbose self
           then modify (add_stdout ["Checking state of repository..."])
           else mret ()) w
          = (Return tt, if verbose self
                        then add_stdout ["Checking state of repository..."] w
                        else w)) as -> by by destruct (verbose self).
  cbn beta iota. py_eval.
  destruct (repo_operation self (validate_repostate v) _) as [[r|e] w1]; [|done].
  destruct (check_tag _ && negb _); [|done].
  py_eval. destruct (get_current_tag_name self w1) as [[tag|e] w2]; [|done].
  py_eval. destruct (repo_operation self (tag_exists v tag) w2) as [[r'|e] w3];
    [|done].
  by destruct (default false r').
Qed.

(** X2: A release path that does not exist stops [pre_release] first: it
    raises a [ReleaseError] and leaves the world untouched, whatever adapter
    is bound, if any.  For a path of plain characters (printable ASCII
    without quote or backslash) the message is "Release path does not
    exist: " followed by the path between single quotes. *)
Theorem pre_release_missing_release_path (self : BuildProcess) (w : World) :
  let release_path := release_packages_path (config (package self)) in
  filesystem w !! release_path = None →
  (∃ msg, pre_release self w = (Raise (Exc ReleaseError msg), w)) ∧
  (plain_string release_path = true →
   pre_release self w =
     (Raise (Exc ReleaseError
               ("Release path does not exist: '" +:+ release_path +:+ "'")),
      w)).
Proof.
  intros release_path Hnone.
  assert (pre_release self w =
            (Raise (Exc ReleaseError
                      ("Release path does not exist: "
                       +:+ PyStr.repr release_path)), w)) as Hrun.
  { unfold pre_release, pre_release_repository_checks, os_path_exists.
    rewrite !bind_run. unfold gets at 1. cbn beta iota.
    rewrite bool_decide_eq_false_2; [done|].
    fold release_path. rewrite Hnone. by intros [? ?]. }
  split; [by eexists|]. intros _. rewrite Hrun. reflexivity.
Qed.

(** X3: The calls that need the repository fail on their [assert] when no adapter
    is bound: [pre_release] once the release path is found,
    [get_release_data] always, [post_release] once the tag name is formatted.
    None of them changes the world. *)
Theorem release_needs_vcs (global_config : Config) (self : BuildProcess)
    (release_message : option string) (w : World) :
  vcs self = None →
  (is_Some (filesystem w !! release_packages_path (config (package self))) →
   pre_release self w = (Raise (Exc AssertionError EmptyString), w)) ∧
  get_release_data global_config self w
    = (Raise (Exc AssertionError EmptyString), w) ∧
  (∀ tag, get_current_tag_name self w = (Return tag, w) →
          post_release self release_message w
            = (Raise (Exc AssertionError EmptyString), w)).
Proof.
  intros Hvcs. split; [|split].
  - intros Hpath. unfold pre_release, pre_release_repository_checks,
      os_path_exists, assert_vcs.
    rewrite !bind_run. unfold gets at 1. cbn beta iota.
    rewrite bool_decide_eq_true_2 by done. cbn [negb]. py_eval.
    by rewrite Hvcs.
  - unfold get_release_data, assert_vcs. rewrite bind_run.
    destruct (get_previous_release_run self w) as [prev ->].
    cbn beta iota. rewrite bind_run. by rewrite Hvcs.
  - intros tag Htag. unfold post_release, assert_vcs.
    rewrite bind_run, Htag. cbn beta iota. rewrite bind_run. by rewrite Hvcs.
Qed.

(** X4: A tag that already exists stops the release, unless tags are not checked
    ([check_tag] off) or [ignore_existing_tag] is set: then the adapter is
    not asked and the repository checks end where the validation ended. *)
Theorem pre_release_tag_collision (self : BuildProcess) (v : ReleaseVCS Version)
    (w w1 w2 : World) (r : option unit) (tag : string) :
  is_Some (filesystem w !! release_packages_path (config (package self))) →
  vcs self = Some v →
  repo_operation self (validate_repostate v)
    (if verbose self
     then add_stdout ["Checking state of repository..."] w else w)
    = (Return r, w1) →
  get_current_tag_name self w1 = (Return tag, w1) →
  tag_exists v tag w1 = (Return true, w2) →
  (check_tag (plugins_release_vcs (config (package self))) = true →
   ignore_existing_tag self = false →
   pre_release self w =
     (Raise (Exc ReleaseError
               ("Cannot release - the current package version '"
                +:+ version_str (version (package self))
                +:+ "' is already tagged in the repository. "
                +:+ "Use --ignore-existing-tag to force the release")), w2)) ∧
  (check_tag (plugins_release_vcs (config (package self))) = false ∨
   ignore_existing_tag self = true →
   pre_release_repository_checks self w = (Return tt, w1)).
Proof.
  intros Hpath Hvcs Hval Htag Hexists.
  pose proof (repository_checks_run self v w Hpath Hvcs) as Hrun.
  rewrite Hval in Hrun. split.
  - intros Hc Hi. rewrite Hc, Hi in Hrun. cbn [andb negb] in Hrun.
    rewrite Htag in Hrun.
    rewrite (repo_operation_return self _ _ _ _ Hexists) in Hrun.
    cbn in Hrun. unfold pre_release. by rewrite bind_run, Hrun.
  - intros [Hc | Hi].
    + by rewrite Hc in Hrun.
    + rewrite Hi in Hrun. by rewrite andb_false_r in Hrun.
Qed.

(** X5: With [skip_errors], a tag check that fails with a [ReleaseVCSError] is
    taken as "not tagged": the failure becomes a warning and the repository
    checks pass. *)
Theorem pre_release_tag_check_skipped (self : BuildProcess)
    (v : ReleaseVCS Version) (w w1 w2 : World) (r : option unit)
    (tag : string) (e : exn) :
  is_Some (filesystem w !! release_packages_path (config (package self))) →
  vcs self = Some v →
  repo_operation self (validate_repostate v)
    (if verbose self
     then add_stdout ["Checking state of repository..."] w else w)
    = (Return r, w1) →
  get_current_tag_name self w1 = (Return tag, w1) →
  tag_exists v tag w1 = (Raise e, w2) →
  check_tag (plugins_release_vcs (config (package self))) = true →
  ignore_existing_tag self = false →
  skip_errors self = true →
  isinstance e ReleaseVCSError = true →
  pre_release_repository_checks self w =
    (Return tt,
     add_warning ("THE FOLLOWING ERROR WAS SKIPPED:" +:+ PyStr.NL +:+ exn_str e)
       w2).
Proof.
  intros Hpath Hvcs Hval Htag Hfail Hc Hi Hskip He.
  rewrite (repository_checks_run self v w Hpath Hvcs), Hval, Hc, Hi.
  cbn [andb negb]. rewrite Htag.
  by rewrite (repo_operation_skip self _ _ _ _ Hfail Hskip He).
Qed.

Lemma check_uuid_world (self : BuildProcess) packages (w w' : World) r :
  check_uuid self packages w = (r, w') → w' = w.
Proof.
  rewrite check_uuid_run. destruct packages as [|latest rest]; [by intros [= _ <-]|].
  by destruct (_ && _ && _); intros [= _ <-].
Qed.

Lemma check_latest_world (self : BuildProcess) packages (w w' : World) r :
  check_latest self packages w = (r, w') → w' = w.
Proof.
  rewrite check_latest_run. destruct (ensure_latest self); [|by intros [= _ <-]].
  destruct packages as [|first rest]; [by intros [= _ <-]|].
  by destruct (version_gt _ _); intros [= _ <-].
Qed.

Lemma pre_release_success_inv (self : BuildProcess) (w w' : World) :
  pre_release self w = (Return tt, w') →
  pre_release_repository_checks self w = (Return tt, w') ∧
  ∃ it,
    iter_packages (name (package self))
      [release_packages_path (config (package self))] w' = (Return it, w') ∧
    check_uuid self (sorted_by_version_reverse it) w' = (Return tt, w') ∧
    check_latest self (sorted_by_version_reverse it) w' = (Return tt, w').
Proof.
  unfold pre_release. rewrite bind_run.
  destruct (pre_release_repository_checks self w) as [[[]|e] w1]; [|done].
  cbn beta iota. rewrite bind_run.
  destruct (released_packages_run self w1) as (it & Hit & ->).
  cbn beta iota. rewrite bind_run.
  destruct (check_uuid self (sorted_by_version_reverse it) w1)
    as [[[]|e] w2] eqn:Hu; [|done].
  pose proof (check_uuid_world _ _ _ _ _ Hu) as ->.
  intros Hl. pose proof (check_latest_world _ _ _ _ _ Hl) as ->.
  split; [done|]. by exists it.
Qed.

Lemma repository_checks_need (self : BuildProcess) (w w' : World) :
  pre_release_repository_checks self w = (Return tt, w') →
  is_Some (filesystem w !! release_packages_path (config (package self))) ∧
  is_Some (vcs self).
Proof.
  unfold pre_release_repository_checks, os_path_exists, assert_vcs.
  rewrite bind_run. unfold gets at 1. cbn beta iota.
  case_bool_decide as Hpath; cbn [negb]; [|done].
  py_eval. destruct (vcs self); [by eauto|done].
Qed.

Section MoreOrdered.

Context `{!VersionOrder Version}.

(** X6: What a [pre_release] that returns has established: the release path
    exists and an adapter is bound; the released packages of this name, read
    in the world [pre_release] leaves, hold no version above the current one
    when [ensure_latest] is set, and the newest of them does not carry a
    different non-empty UUID. *)
Theorem pre_release_returns_safe (self : BuildProcess) (w w' : World) :
  pre_release self w = (Return tt, w') →
  is_Some (filesystem w !! release_packages_path (config (package self))) ∧
  is_Some (vcs self) ∧
  ∃ it,
    iter_packages (name (package self))
      [release_packages_path (config (package self))] w' = (Return it, w') ∧
    (ensure_latest self = true →
     ∀ p, p ∈ it →
          version_gt (version p) (version (package self)) = false) ∧
    (∀ latest_package rest,
       sorted_by_version_reverse it = latest_package :: rest →
       uuid_truthy (uuid (package self)) = true →
       uuid_truthy (uuid latest_package) = true →
       uuid latest_package = uuid (package self)).
Proof.
  intros Hok. apply pre_release_success_inv in Hok
    as (Hchecks & it & Hit & Huuid & Hlatest).
  destruct (repository_checks_need _ _ _ Hchecks) as [Hpath Hvcs].
  split; [done|]. split; [done|]. exists it. split; [done|]. split.
  - intros He p Hp. rewrite check_latest_run, He in Hlatest.
    rewrite <- sorted_by_version_reverse_perm in Hp.
    pose proof (sorted_by_version_reverse_sorted it) as Hs.
    destruct (sorted_by_version_reverse it) as [|first rest];
      [by apply elem_of_nil in Hp|].
    destruct (version_gt (version first) (version (package self))) eqn:Hf;
      [done|].
    destruct (version_gt (version p) (version (package self))) eqn:Hgt; [|done].
    by rewrite (sorted_head_newest _ _ _ _ Hs Hp Hgt) in Hf.
  - intros latest rest Hs Hmine Htheirs.
    rewrite check_uuid_run, Hs, Hmine, Htheirs in Huuid. cbn [andb] in Huuid.
    case_bool_decide; [done|]. done.
Qed.

Lemma find_split {A} (f : A → bool) (l : list A) (x : A) :
  find f l = Some x →
  ∃ l1 l2, l = l1 ++ x :: l2 ∧ f x = true ∧ Forall (λ y, f y = false) l1.
Proof.
  induction l as [|y l IH]; [done|]. simpl.
  destruct (f y) eqn:Hy.
  - intros [= <-]. by exists [], l.
  - intros (l1 & l2 & -> & Hx & Hl1)%IH.
    exists (y :: l1), l2. split; [done|]. split; [done|]. by constructor.
Qed.

Lemma find_none_all {A} (f : A → bool) (l : list A) :
  find f l = None → Forall (λ y, f y = false) l.
Proof.
  induction l as [|y l IH]; [by constructor|]. simpl.
  destruct (f y) eqn:Hy; [done|]. intros ?. constructor; auto.
Qed.

(** X7: [get_previous_release] reads the released packages without changing the
    world and gives the newest of those whose version is strictly below the
    current one: no other such package has a greater version.  It gives [None]
    exactly when no released version is below the current one. *)
Theorem get_previous_release_newest_older (self : BuildProcess) (w : World) :
  ∃ it r,
    iter_packages (name (package self))
      [release_packages_path (config (package self))] w = (Return it, w) ∧
    get_previous_release self w = (Return r, w) ∧
    match r with
    | Some p =>
        p ∈ it ∧
        version_lt (version p) (version (package self)) = true ∧
        ∀ q, q ∈ it →
             version_lt (version q) (version (package self)) = true →
             version_lt (version p) (version q) = false
    | None =>
        ∀ q, q ∈ it → version_lt (version q) (version (package self)) = false
    end.
Proof.
  destruct (released_packages_run self w) as (it & Hit & _).
  exists it. eexists. split; [exact Hit|].
  unfold get_previous_release. rewrite bind_run, Hit. cbn beta iota.
  rewrite ret_run. split; [reflexivity|].
  pose proof (sorted_by_version_reverse_sorted it) as Hs.
  pose proof (sorted_by_version_reverse_perm it) as Hp.
  destruct (find _ (sorted_by_version_reverse it)) as [p|] eqn:Hfind.
  - apply find_split in Hfind as (l1 & l2 & Hl & Hlt & Hl1).
    rewrite Hl in Hs, Hp. split; [|split; [done|]].
    + rewrite <- Hp. apply elem_of_app. right. apply elem_of_cons. by left.
    + intros q Hq Hqlt. rewrite <- Hp in Hq.
      apply elem_of_app in Hq as [Hq | Hq].
      * rewrite Forall_forall in Hl1. apply Hl1 in Hq. congruence.
      * apply elem_of_cons in Hq as [-> | Hq]; [apply version_lt_irrefl|].
        apply StronglySorted_app_1_r, StronglySorted_inv in Hs as [_ Hs].
        rewrite Forall_forall in Hs. by apply Hs.
  - apply find_none_all in Hfind. rewrite Forall_forall in Hfind.
    intros q Hq. apply Hfind. by rewrite Hp.
Qed.

End MoreOrdered.

(** ** The release data and the release tag *)

Lemma string_length_app (a b : string) :
  String.length (a +:+ b) = (String.length a + String.length b)%nat.
Proof.
  induction a as [|c a IH]; [done|].
  change (String c a +:+ b) with (String c (a +:+ b)). simpl. by rewrite IH.
Qed.

(** X8: With a positive limit [maxlen], the changelog [get_release_data] returns
    never has more than [maxlen + 3] characters, whatever the adapter gave. *)
Theorem get_release_data_changelog_bounded (global_config : Config)
    (self : BuildProcess) (w w' : World) (data : ReleaseData) (s : string) :
  0 < max_package_changelog_chars global_config →
  get_release_data global_config self w = (Return data, w') →
  rd_changelog data = Some s →
  PyStr.len s ≤ max_package_changelog_chars global_config + 3.
Proof.
  intros Hmax. unfold get_release_data. rewrite bind_run.
  destruct (get_previous_release_run self w) as [prev ->]. cbn beta iota.
  rewrite bind_run.
  destruct (assert_vcs self w) as [[v|e] w0]; [|done]. cbn beta iota.
  rewrite bind_run.
  destruct (repo_operation self (get_current_revision v) w0) as [[rev|e] w1];
    [|done].
  cbn beta iota. rewrite bind_run.
  destruct (repo_operation self _ w1) as [[cl|e] w2]; [|done].
  cbn beta iota zeta. rewrite ret_run. intros [= <- <-]. cbn [rd_changelog].
  set (maxlen := max_package_changelog_chars global_config) in *.
  assert (negb (maxlen =? 0) = true) as ->
    by (apply negb_true_iff, Z.eqb_neq; lia).
  cbn [andb]. destruct cl as [c|]; [|done].
  cbn [changelog_truthy default from_option id].
  destruct (PyStr.truthy c) eqn:Ht; cbn [andb].
  - destruct (PyStr.len c >? maxlen + 3) eqn:Hlen; intros [= <-].
    + unfold PyStr.slice_to, PyStr.len in *.
      assert ((maxlen <? 0) = false) as -> by (apply Z.ltb_ge; lia).
      apply Z.gtb_lt in Hlen.
      rewrite string_length_app, substring_length by lia. simpl. lia.
    + rewrite Z.gtb_ltb in Hlen. apply Z.ltb_ge in Hlen. lia.
  - intros [= <-]. destruct c; [|done]. unfold PyStr.len. simpl. lia.
Qed.

(** X9: A limit of 0 switches the truncation off: the changelog is returned as
    the scoped call gave it, however long, beside the adapter's name, the
    revision and the previous release's version and revision. *)
Theorem get_release_data_no_limit (global_config : Config) (self : BuildProcess)
    (v : ReleaseVCS Version) (previous_package : option Package)
    (revision_ : option Revision) (changelog : option string)
    (w w1 w2 : World) :
  max_package_changelog_chars global_config = 0 →
  vcs self = Some v →
  get_previous_release self w = (Return previous_package, w) →
  repo_operation self (get_current_revision v) w = (Return revision_, w1) →
  repo_operation self (get_changelog v (previous_package ≫= revision)) w1
    = (Return changelog, w2) →
  get_release_data global_config self w =
    (Return {| rd_vcs := vcs_name v;
               rd_revision := revision_;
               rd_changelog := changelog;
               rd_previous_version := version <$> previous_package;
               rd_previous_revision := previous_package ≫= revision |}, w2).
Proof.
  intros Hmax Hvcs Hprev Hrev Hlog. unfold get_release_data, assert_vcs.
  rewrite bind_run, Hprev, Hvcs. py_eval. rewrite Hrev. py_eval.
  rewrite Hlog. py_eval. by rewrite Hmax.
Qed.

(** X10: With [skip_errors], an adapter that fails with [ReleaseVCSError]s on the
    revision and on the changelog does not stop [get_release_data]: both
    fields are [None], the failures are two warnings. *)
Theorem get_release_data_skips_vcs_errors (global_config : Config)
    (self : BuildProcess) (v : ReleaseVCS Version)
    (previous_package : option Package) (e1 e2 : exn) (w w1 w2 : World) :
  vcs self = Some v →
  skip_errors self = true →
  get_previous_release self w = (Return previous_package, w) →
  get_current_revision v w = (Raise e1, w1) →
  isinstance e1 ReleaseVCSError = true →
  get_changelog v (previous_package ≫= revision)
    (add_warning ("THE FOLLOWING ERROR WAS SKIPPED:" +:+ PyStr.NL +:+ exn_str e1)
       w1) = (Raise e2, w2) →
  isinstance e2 ReleaseVCSError = true →
  get_release_data global_config self w =
    (Return {| rd_vcs := vcs_name v;
               rd_revision := None;
               rd_changelog := None;
               rd_previous_version := version <$> previous_package;
               rd_previous_revision := previous_package ≫= revision |},
     add_warning ("THE FOLLOWING ERROR WAS SKIPPED:" +:+ PyStr.NL +:+ exn_str e2)
       w2).
Proof.
  intros Hvcs Hskip Hprev Hrev He1 Hlog He2. unfold get_release_data, assert_vcs.
  rewrite bind_run, Hprev, Hvcs. py_eval.
  rewrite (repo_operation_skip self _ _ _ _ Hrev Hskip He1). py_eval.
  rewrite (repo_operation_skip self _ _ _ _ Hlog Hskip He2). py_eval.
  cbn [changelog_truthy]. by rewrite andb_false_r.
Qed.

(** X11: A tag-name template that cannot be formatted makes [post_release] raise
    the [ReleaseError] before the adapter is looked at: the same happens with
    any adapter or none and with [skip_errors] set, and nothing changes. *)
Theorem post_release_bad_template (self : BuildProcess)
    (release_message : option string) (w : World) (e : exn) :
  format (package self) (tag_name (plugins_release_vcs (config (package self))))
    = Raise e →
  post_release self release_message w =
    (Raise (Exc ReleaseError
              ("Error formatting release tag name: " +:+ exn_str e)), w).
Proof.
  intros Hf. unfold post_release.
  by rewrite bind_run, get_current_tag_name_run, Hf.
Qed.

(** X12: [post_release] asks the adapter for one tag, named by the formatted
    template ("unversioned" if that is empty).  A [ReleaseVCSError] from the
    adapter fails the call, unless [skip_errors] is set: then [post_release]
    returns without the tag, with a warning. *)
Theorem post_release_tag_failure (self : BuildProcess) (v : ReleaseVCS Version)
    (release_message : option string) (s : string) (e : exn) (w w' : World) :
  vcs self = Some v →
  format (package self) (tag_name (plugins_release_vcs (config (package self))))
    = Return s →
  create_release_tag v (if PyStr.truthy s then s else "unversioned")
    release_message w = (Raise e, w') →
  isinstance e ReleaseVCSError = true →
  post_release self release_message w =
    if skip_errors self
    then (Return tt,
          add_warning ("THE FOLLOWING ERROR WAS SKIPPED:" +:+ PyStr.NL
                       +:+ exn_str e) w')
    else (Raise e, w').
Proof.
  intros Hvcs Hf Htag He. unfold post_release, assert_vcs.
  rewrite bind_run, get_current_tag_name_run, Hf, Hvcs. py_eval.
  destruct (skip_errors self) eqn:Hskip.
  - by rewrite (repo_operation_skip self _ _ _ _ Htag Hskip He).
  - by rewrite (repo_operation_propagate self _ _ _ _ Htag (or_introl Hskip)).
Qed.

(** ** The variant walker, further *)

Lemma omap_id_length {A} (l : list (option A)) :
  (length (omap id l) ≤ length l)%nat.
Proof.
  induction l as [|[x|] l IH]; simpl; [lia| |];
    change (list_omap (option A) A id l) with (omap id l); lia.
Qed.

(** X13: Whatever the package and the filter, the count [visit_variants] returns
    is the number of results, and no more than the number of variants the
    package iterates. *)
Theorem visit_variants_count {R} (self : BuildProcess) (func : Variant → Py R)
    (variants : option (list Z)) (w w' : World) (n : Z) (rs : list R) :
  visit_variants self func variants w = (Return (n, rs), w') →
  n = Z.of_nat (length rs) ∧
  (length rs ≤ length (iter_variants (package self)))%nat.
Proof.
  unfold visit_variants. rewrite bind_run.
  py_step; [|done].
  cbn beta iota. rewrite bind_run, for_in_visit, bind_run.
  py_step; [|done].
  cbn beta iota. rewrite !ret_run. cbn beta iota. cbn [fst snd app].
  intros [= <- <- <-]. simpl. split; [lia|].
  match goal with
  | Hm : mapM _ _ _ = _ |- _ => apply mapM_Py_length in Hm; rewrite <- Hm
  end.
  apply omap_id_length.
Qed.

Lemma mapM_Py_app_raise {A B} (f : A → Py B) pre x post w rs w1 e w2 :
  mapM f pre w = (Return rs, w1) →
  f x w1 = (Raise e, w2) →
  mapM f (pre ++ x :: post) w = (Raise e, w2).
Proof.
  revert w rs. induction pre as [|y pre IH]; intros w rs Hpre Hx.
  - injection Hpre as <- <-. cbn [app mapM]. by rewrite bind_run, Hx.
  - cbn [app mapM] in *. rewrite bind_run in Hpre. rewrite bind_run.
    destruct (f y w) as [[b|e'] w0]; [|done]. cbn beta iota in *.
    rewrite bind_run in Hpre. rewrite bind_run.
    destruct (mapM f pre w0) as [[bs|e'] w0'] eqn:Hm; [|done].
    injection Hpre as <- <-. by rewrite (IH _ _ Hm Hx).
Qed.

(** X14: Without a filter, the first variant on which the per-variant function
    raises ends the walk: [visit_variants] raises that exception in the world
    the call left, the results so far are lost and the variants after it are
    not visited. *)
Theorem visit_variants_first_failure {R} (self : BuildProcess)
    (func : Variant → Py R) (variants : option (list Z))
    (pre post : list Variant) (v : Variant)
    (w w1 w2 : World) (rs : list R) (e : exn) :
  variants_truthy variants = false →
  iter_variants (package self) = pre ++ v :: post →
  mapM func pre w = (Return rs, w1) →
  func v w1 = (Raise e, w2) →
  visit_variants self func variants w = (Raise e, w2).
Proof.
  intros Hf Hvs Hpre Hv. unfold visit_variants. rewrite Hf. py_eval.
  rewrite for_in_visit_all, bind_run, Hvs.
  by rewrite (mapM_Py_app_raise func pre v post w rs w1 e w2).
Qed.

Lemma for_in_ext {A St} (xs : list A) (st : St)
    (f g : A → St → Py (loop_ctl * St)) (w : World) :
  (∀ x s w', f x s w' = g x s w') → for_in xs st f w = for_in xs st g w.
Proof.
  intros Hfg. revert st w. induction xs as [|x xs IH]; intros st w; [done|].
  cbn [for_in]. rewrite !bind_run, Hfg.
  destruct (g x st w) as [[[c st']|e] w1]; [|done].
  cbn [fst snd]. destruct c; [apply IH|done].
Qed.

(** X15: Only the set of indices in a filter matters: two non-empty filters with
    the same elements, in any order and with any repetition, give the same
    walk and, if an index is invalid, the same error. *)
Theorem visit_variants_filter_as_set {R} (self : BuildProcess)
    (func : Variant → Py R) (variants1 variants2 : list Z) (w : World) :
  variants1 ≠ [] → variants2 ≠ [] →
  (∀ i, i ∈ variants1 ↔ i ∈ variants2) →
  visit_variants self func (Some variants1) w =
  visit_variants self func (Some variants2) w.
Proof.
  intros H1 H2 Hsame. unfold visit_variants.
  assert (variants_truthy (Some variants1) = true) as ->
    by by destruct variants1.
  assert (variants_truthy (Some variants2) = true) as ->
    by by destruct variants2.
  cbn [default from_option id].
  assert (invalid_variants_of variants1
            (range (num_variants (package self)))
          = invalid_variants_of variants2
              (range (num_variants (package self)))) as ->.
  { apply set_eq. intros x. rewrite !invalid_variants_of_spec.
    by rewrite Hsame. }
  rewrite !bind_run.
  py_step; [|done].
  cbn beta iota. rewrite !bind_run.
  rewrite (for_in_ext _ _ _
    (λ variant '(results, num_visited),
       if true && negb (index_in (index variant) (Some variants2))
       then
         _print_header self ("Skipping " +:+ _n_of_m self variant +:+ "...") 1;;
         mret (Next, (results, num_visited))
       else
         result ← func variant;
         mret (Next, (results ++ [result], num_visited + 1)))); [done|].
  intros x [results num_visited] w'.
  assert (index_in (index x) (Some variants1)
          = index_in (index x) (Some variants2)) as ->; [|done].
  unfold index_in. destruct (index x) as [i|]; [|done].
  apply bool_decide_ext, Hsame.
Qed.

(** ** The hook runner, further *)

(** X16: An exception of a hook that is no [RezError] is not handled: [run_hooks]
    raises it as it is, the later hooks do not run. *)
Theorem run_hooks_foreign_error_propagates (self : BuildProcess)
    (ev : ReleaseHookEvent) (kw : kwargs) (pre post : list (ReleaseHook Version))
    (hook : ReleaseHook Version) (w w1 w2 : World) (exc : exn) :
  hooks self = pre ++ hook :: post →
  run_hooks (with_hooks self pre) ev kw w = (Return tt, w1) →
  (let w0 := hook_started ev hook w1 in
   hook_callback hook (func_name ev) (user w0) kw w0 = (Raise exc, w2)) →
  isinstance exc ReleaseHookCancellingError = false →
  isinstance exc RezError = false →
  run_hooks self ev kw w = (Raise exc, w2).
Proof.
  intros Hh Hpre Hcb Hc Hr.
  rewrite (run_hooks_first_failure self ev kw pre hook post w w1 w2 exc) by done.
  by rewrite Hc, Hr.
Qed.

(** X17: When the callbacks of all loaded hooks return, [run_hooks] returns, and
    what it did is: for each hook in load order, log the "Running" line and
    call the callback with the current user and the keyword arguments. *)
Theorem run_hooks_all_return (self : BuildProcess) (ev : ReleaseHookEvent)
    (kw : kwargs) (w w' : World) (us : list unit) :
  mapM (λ hook,
          debug_print ("Running " +:+ label ev +:+ " hook '"
                       +:+ hook_name hook +:+ "'...");;
          user ← getpass_getuser;
          hook_callback hook (func_name ev) user kw) (hooks self) w
    = (Return us, w') →
  run_hooks self ev kw w = (Return tt, w').
Proof.
  unfold run_hooks. rewrite bind_run.
  generalize (hooks self). intros hs. revert w us.
  induction hs as [|h hs IH]; intros w us.
  - cbn [mapM for_in]. rewrite !ret_run. by intros [= _ <-].
  - cbn [mapM for_in]. rewrite !bind_run, run_hook_run.
    unfold debug_print, getpass_getuser, hook_started. py_unfold.
    cbn beta iota zeta.
    destruct (hook_callback h _ _ _ _) as [[[]|exc] w1]; [|done].
    cbn [fst snd]. intros Hrest.
    destruct (@mapM Py _ _ _ _ _ hs w1) as [[us'|e] w2] eqn:Hm; [|done].
    injection Hrest as <- <-. by apply (IH w1 us').
Qed.

(** ** Construction *)

(** X18: An adapter bound to another path than the working directory is refused
    with a [BuildProcessError] before anything is loaded: the world is
    unchanged and the loaders play no part. *)
Theorem BuildProcess_init_mismatched_vcs (loaders : Loaders Version)
    (working_dir build_system : string) (v : ReleaseVCS Version)
    (ensure_latest skip_errors ignore_existing_tag verbose : bool) (w : World) :
  vcs_path v ≠ working_dir →
  BuildProcess_init loaders working_dir build_system (Some v) ensure_latest
    skip_errors ignore_existing_tag verbose w =
    (Raise (Exc BuildProcessError
              "Build process was instantiated with a mismatched VCS instance"),
     w).
Proof.
  intros Hne. unfold BuildProcess_init. rewrite bind_run.
  by rewrite bool_decide_eq_false_2.
Qed.

(** X19: A build process that [__init__] returns keeps its arguments, is bound, if
    to any adapter, to one whose path is the working directory, holds the
    package the loader found there and the hooks made from the package's hook
    names (none if it names none), and builds under the package's build
    directory inside the working directory. *)
Theorem BuildProcess_init_invariants (loaders : Loaders Version)
    (working_dir_ build_system_ : string) (vcs_ : option (ReleaseVCS Version))
    (ensure_latest_ skip_errors_ ignore_existing_tag_ verbose_ : bool)
    (w w' : World) (self : BuildProcess) :
  BuildProcess_init loaders working_dir_ build_system_ vcs_ ensure_latest_
    skip_errors_ ignore_existing_tag_ verbose_ w = (Return self, w') →
  (∀ v, vcs self = Some v → vcs_path v = working_dir self) ∧
  working_dir self = working_dir_ ∧
  build_system self = build_system_ ∧
  vcs self = vcs_ ∧
  ensure_latest self = ensure_latest_ ∧
  skip_errors self = skip_errors_ ∧
  ignore_existing_tag self = ignore_existing_tag_ ∧
  verbose self = verbose_ ∧
  build_path self =
    os_path_join working_dir_ (build_directory (config (package self))) ∧
  ∃ w0,
    get_developer_package loaders working_dir_ w = (Return (package self), w0) ∧
    create_release_hooks loaders
      (default [] (release_hooks (config (package self)))) working_dir_ w0
      = (Return (hooks self), w').
Proof.
  unfold BuildProcess_init. rewrite bind_run.
  destruct vcs_ as [v|].
  - case_bool_decide as Hpath; cbn [negb]; [|done].
    py_eval. py_step; [|done]. cbn beta iota zeta. rewrite bind_run.
    py_step; [|done]. cbn beta iota. rewrite ret_run.
    intros [= <- <-]. cbn. repeat split; try done.
    + by intros v' [= <-].
    + by eexists.
  - py_eval. py_step; [|done]. cbn beta iota zeta. rewrite bind_run.
    py_step; [|done]. cbn beta iota. rewrite ret_run.
    intros [= <- <-]. cbn. repeat split; try done. by eexists.
Qed.

(** ** Paths *)

Lemma startswith_app (a b : string) : PyStr.startswith (a +:+ b) a = true.
Proof.
  induction a as [|c a IH]; [by destruct b|].
  change (String c a +:+ b) with (String c (a +:+ b)).
  simpl. by rewrite Ascii.eqb_refl.
Qed.

Lemma startswith_trans (s p q : string) :
  PyStr.startswith s p = true → PyStr.startswith p q = true →
  PyStr.startswith s q = true.
Proof.
  revert s p. induction q as [|c q IH]; intros s p Hsp Hpq; [by destruct s|].
  destruct p as [|b p]; [done|]. destruct s as [|a s]; [done|].
  simpl in *.
  destruct (Ascii.eqb b a) eqn:Hba; [|done].
  destruct (Ascii.eqb c b) eqn:Hcb; [|done].
  apply Ascii.eqb_eq in Hba as ->. rewrite Hcb. by apply (IH s p).
Qed.

Lemma os_path_join_under (a b : string) :
  PyStr.startswith b "/" = false →
  PyStr.startswith (os_path_join a b) a = true.
Proof.
  intros Hb. unfold os_path_join. rewrite Hb.
  destruct (_ || _); apply startswith_app.
Qed.

(** X20: The install path of a package lies under the repository path it is
    computed for, as long as neither the package's name nor the text of its
    version starts with a slash. *)
Theorem get_package_install_path_under (version_truthy : Version → bool)
    (self : BuildProcess) (path : string) :
  PyStr.startswith (name (package self)) "/" = false →
  PyStr.startswith (version_str (version (package self))) "/" = false →
  PyStr.startswith (get_package_install_path version_truthy self path) path
    = true.
Proof.
  intros Hname Hver. unfold get_package_install_path.
  destruct (version_truthy _); [|by apply os_path_join_under].
  eapply startswith_trans; by apply os_path_join_under.
Qed.

End MoreProperties.

(** * The further properties on the sample package *)

Section MoreSampleProperties.

Import Sample.

(** Releasing into a repository path that is not there. *)
Lemma pre_release_missing_release_path_witness :
  pre_release (process (foo (1, 5)%nat None 1) None [] true false false)
    bare_world =
    (Raise (Exc ReleaseError "Release path does not exist: '/rel'"), bare_world).
Proof.
  exact (proj2 (pre_release_missing_release_path
                  (process (foo (1, 5)%nat None 1) None [] true false false)
                  bare_world eq_refl) eq_refl).
Defined.

(** A build-only process asked to release. *)
Lemma release_needs_vcs_witness :
  let self := process (foo (1, 5)%nat None 1) None [] true false false in
  pre_release self (world []) = (Raise (Exc AssertionError EmptyString), world []) ∧
  get_release_data settings self (world [])
    = (Raise (Exc AssertionError EmptyString), world []) ∧
  post_release self (Some "release 1.5") (world [])
    = (Raise (Exc AssertionError EmptyString), world []).
Proof.
  intros self.
  destruct (release_needs_vcs settings self (Some "release 1.5") (world [])
              eq_refl) as (Hpre & Hdata & Hpost).
  split; [|split].
  - apply Hpre. vm_compute. by eexists.
  - exact Hdata.
  - apply (Hpost "foo-1.5"). reflexivity.
Defined.

(** Releasing from a repository already tagged at this version, with and
    without [ignore_existing_tag]. *)
Lemma pre_release_tag_collision_witness :
  let strict := process (foo (1, 5)%nat None 1) (Some tagged_git) []
                  true false false in
  let forced := with_ignore_existing_tag strict in
  pre_release strict (world []) =
    (Raise (Exc ReleaseError
              ("Cannot release - the current package version '1.5' is already "
               +:+ "tagged in the repository. "
               +:+ "Use --ignore-existing-tag to force the release")),
     world []) ∧
  pre_release_repository_checks forced (world []) = (Return tt, world []).
Proof.
  intros strict forced. split.
  - refine (proj1 (pre_release_tag_collision strict tagged_git (world [])
                     (world []) (world []) (Some tt) "foo-1.5" _ eq_refl
                     eq_refl eq_refl eq_refl) eq_refl eq_refl).
    vm_compute. by eexists.
  - refine (proj2 (pre_release_tag_collision forced tagged_git (world [])
                     (world []) (world []) (Some tt) "foo-1.5" _ eq_refl
                     eq_refl eq_refl eq_refl) (or_intror eq_refl)).
    vm_compute. by eexists.
Defined.

(** A tag check that fails while errors are skipped. *)
Lemma pre_release_tag_check_skipped_witness :
  let e := Exc ReleaseVCSError "no network" in
  let self := process (foo (1, 5)%nat None 1) (Some (flaky_git e)) []
                true true false in
  pre_release_repository_checks self (world []) =
    (Return tt,
     add_warning ("THE FOLLOWING ERROR WAS SKIPPED:" +:+ PyStr.NL
                  +:+ "no network") (world [])).
Proof.
  intros e self.
  refine (pre_release_tag_check_skipped self (flaky_git e) (world [])
            (world []) (world []) (Some tt) "foo-1.5" e _ eq_refl eq_refl
            eq_refl eq_refl eq_refl eq_refl eq_refl eq_refl).
  vm_compute. by eexists.
Defined.

(** After a [pre_release] that returned, with 1.0 and 1.2 released. *)
Lemma pre_release_returns_safe_witness :
  let released := [foo (1, 0)%nat None 1; foo (1, 2)%nat None 1] in
  let self := process (foo (1, 5)%nat None 1) (Some (git "fixes")) []
                true false false in
  is_Some (filesystem (world released) !! "/rel") ∧
  is_Some (vcs self) ∧
  ∃ it,
    iter_packages "foo" ["/rel"] (world released) = (Return it, world released) ∧
    (ensure_latest self = true →
     ∀ p, p ∈ it → version_gt (version p) (1, 5)%nat = false) ∧
    (∀ latest_package rest,
       sorted_by_version_reverse it = latest_package :: rest →
       uuid_truthy (uuid (package self)) = true →
       uuid_truthy (uuid latest_package) = true →
       uuid latest_package = uuid (package self)).
Proof.
  intros released self.
  apply (pre_release_returns_safe self (world released) (world released)).
  vm_compute. reflexivity.
Defined.

(** The previous release of 1.5 among 1.0, 2.0 and 1.2. *)
Lemma get_previous_release_newest_older_witness :
  let released :=
    [foo (1, 0)%nat None 1; foo (2, 0)%nat None 1; foo (1, 2)%nat None 1] in
  let self := process (foo (1, 5)%nat None 1) (Some (git "fixes")) []
                true false false in
  ∃ it r,
    iter_packages "foo" ["/rel"] (world released) = (Return it, world released) ∧
    get_previous_release self (world released) = (Return r, world released) ∧
    match r with
    | Some p =>
        p ∈ it ∧
        version_lt (version p) (1, 5)%nat = true ∧
        ∀ q, q ∈ it → version_lt (version q) (1, 5)%nat = true →
             version_lt (version p) (version q) = false
    | None => ∀ q, q ∈ it → version_lt (version q) (1, 5)%nat = false
    end.
Proof.
  intros released self.
  exact (get_previous_release_newest_older self (world released)).
Defined.

(** A changelog of 9 characters under a limit of 5. *)
Lemma get_release_data_changelog_bounded_witness :
  let self := process (foo (1, 5)%nat None 1) (Some (git "abcdefghi")) []
                true false false in
  let data := {| rd_vcs := "git";
                 rd_revision := Some "abc123";
                 rd_changelog := Some "abcde...";
                 rd_previous_version := None;
                 rd_previous_revision := None |} in
  get_release_data settings self (world []) = (Return data, world []) ∧
  PyStr.len "abcde..." ≤ 5 + 3.
Proof.
  intros self data. split; [reflexivity|].
  apply (get_release_data_changelog_bounded settings self (world []) (world [])
           data "abcde..."); reflexivity.
Defined.

(** The same changelog without a limit. *)
Lemma get_release_data_no_limit_witness :
  get_release_data unlimited
    (process (foo (1, 5)%nat None 1) (Some (git "abcdefghi")) []
       true false false) (world [foo (1, 0)%nat None 1]) =
    (Return {| rd_vcs := "git";
               rd_revision := Some "abc123";
               rd_changelog := Some "abcdefghi";
               rd_previous_version := Some (1, 0)%nat;
               rd_previous_revision := Some "r1.0" |},
     world [foo (1, 0)%nat None 1]).
Proof.
  assert (get_previous_release
            (process (foo (1, 5)%nat None 1) (Some (git "abcdefghi")) []
               true false false) (world [foo (1, 0)%nat None 1])
          = (Return (Some (foo (1, 0)%nat None 1)),
             world [foo (1, 0)%nat None 1])) as Hprev
    by (vm_compute; reflexivity).
  exact (get_release_data_no_limit unlimited
           (process (foo (1, 5)%nat None 1) (Some (git "abcdefghi")) []
              true false false) (git "abcdefghi")
           (Some (foo (1, 0)%nat None 1)) (Some "abc123") (Some "abcdefghi")
           (world [foo (1, 0)%nat None 1]) (world [foo (1, 0)%nat None 1])
           (world [foo (1, 0)%nat None 1]) eq_refl eq_refl Hprev eq_refl
           eq_refl).
Defined.

(** Release data from a repository that cannot be read, errors skipped. *)
Lemma get_release_data_skips_vcs_errors_witness :
  let e := Exc ReleaseVCSError "no network" in
  let warning :=
    "THE FOLLOWING ERROR WAS SKIPPED:" +:+ PyStr.NL +:+ "no network" in
  get_release_data settings
    (process (foo (1, 5)%nat None 1) (Some (broken_vcs e)) [] true true false)
    (world []) =
    (Return {| rd_vcs := "git";
               rd_revision := None;
               rd_changelog := None;
               rd_previous_version := None;
               rd_previous_revision := None |},
     add_warning warning (add_warning warning (world []))).
Proof.
  intros e warning.
  exact (get_release_data_skips_vcs_errors settings
           (process (foo (1, 5)%nat None 1) (Some (broken_vcs e)) []
              true true false) (broken_vcs e) None e e (world []) (world [])
           (add_warning warning (world [])) eq_refl eq_refl eq_refl eq_refl
           eq_refl eq_refl eq_refl).
Defined.

(** Tagging a release whose tag-name template has a misspelt field. *)
Lemma post_release_bad_template_witness :
  post_release
    (process (foo_bad_template (1, 5)%nat) (Some (git "fixes")) []
       true true false) (Some "release 1.5") (world []) =
    (Raise (Exc ReleaseError
              "Error formatting release tag name: 'qualified_nam'"), world []).
Proof.
  exact (post_release_bad_template
           (process (foo_bad_template (1, 5)%nat) (Some (git "fixes")) []
              true true false) (Some "release 1.5") (world [])
           (Exc (Subclass "KeyError" Exception) "'qualified_nam'") eq_refl).
Defined.

(** Tagging in a repository that refuses the tag, with and without
    [skip_errors]. *)
Lemma post_release_tag_failure_witness :
  let e := Exc ReleaseVCSError "read-only repository" in
  post_release
    (process (foo (1, 5)%nat None 1) (Some (flaky_git e)) [] true true false)
    (Some "release 1.5") (world []) =
    (Return tt,
     add_warning ("THE FOLLOWING ERROR WAS SKIPPED:" +:+ PyStr.NL
                  +:+ "read-only repository") (world [])) ∧
  post_release
    (process (foo (1, 5)%nat None 1) (Some (flaky_git e)) [] true false false)
    (Some "release 1.5") (world []) = (Raise e, world []).
Proof.
  intros e. split.
  - exact (post_release_tag_failure
             (process (foo (1, 5)%nat None 1) (Some (flaky_git e)) []
                true true false) (flaky_git e) (Some "release 1.5") "foo-1.5"
             e (world []) (world []) eq_refl eq_refl eq_refl eq_refl).
  - exact (post_release_tag_failure
             (process (foo (1, 5)%nat None 1) (Some (flaky_git e)) []
                true false false) (flaky_git e) (Some "release 1.5") "foo-1.5"
             e (world []) (world []) eq_refl eq_refl eq_refl eq_refl).
Defined.

(** Walking the variants 2 and 0 of three. *)
Lemma visit_variants_count_witness :
  let self := process (foo (1, 5)%nat None 3) None [] true false false in
  2 = Z.of_nat (length ["built 0"; "built 2"]) ∧
  (length ["built 0"; "built 2"] ≤ length (iter_variants (package self)))%nat.
Proof.
  intros self.
  apply (visit_variants_count self build_variant (Some [2; 0]) (world [])
           (add_stdout ["built 0"; "built 2"] (world []))).
  vm_compute. reflexivity.
Defined.

(** The build of the second of three variants fails. *)
Lemma visit_variants_first_failure_witness :
  let self := process (foo (1, 5)%nat None 3) None [] true false false in
  visit_variants self (build_all_but 1) None (world []) =
    (Raise (Exc BuildError "compile error"), add_stdout ["built 0"] (world [])).
Proof.
  intros self.
  exact (visit_variants_first_failure self (build_all_but 1) None
           [variant 0] [variant 2] (variant 1) (world [])
           (add_stdout ["built 0"] (world [])) (add_stdout ["built 0"] (world []))
           ["built 0"] (Exc BuildError "compile error")
           eq_refl eq_refl eq_refl eq_refl).
Defined.

(** The filters [2, 0] and [0, 2, 2, 0]. *)
Lemma visit_variants_filter_as_set_witness :
  let self := process (foo (1, 5)%nat None 3) None [] true false true in
  visit_variants self build_variant (Some [2; 0]) (world []) =
  visit_variants self build_variant (Some [0; 2; 2; 0]) (world []).
Proof.
  intros self.
  apply (visit_variants_filter_as_set self build_variant [2; 0] [0; 2; 2; 0]);
    [done|done|].
  intros i. rewrite !elem_of_cons, !elem_of_nil. tauto.
Defined.

(** A hook with a programming error between two hooks that return. *)
Lemma run_hooks_foreign_error_propagates_witness :
  let bug := Exc (Subclass "TypeError" Exception) "unsupported operand" in
  let self :=
    process (foo (1, 5)%nat None 1) (Some (git "fixes"))
      [hook "a" None; hook "h" (Some bug); hook "later" None]
      true true false in
  run_hooks self pre_release_event [] (world []) =
    (Raise bug,
     add_stdout ["h.pre_release called by ann"]
       (add_debug "Running pre-release hook 'h'..."
          (add_stdout ["a.pre_release called by ann"]
             (add_debug "Running pre-release hook 'a'..." (world []))))).
Proof.
  intros bug self.
  refine (run_hooks_foreign_error_propagates self pre_release_event []
            [hook "a" None] [hook "later" None] (hook "h" (Some bug))
            (world [])
            (add_stdout ["a.pre_release called by ann"]
               (add_debug "Running pre-release hook 'a'..." (world [])))
            _ bug _ _ _ _ _); reflexivity.
Defined.

(** Two hooks that return. *)
Lemma run_hooks_all_return_witness :
  let self :=
    process (foo (1, 5)%nat None 1) (Some (git "fixes"))
      [hook "a" None; hook "b" None] true false false in
  run_hooks self pre_release_event [] (world []) =
    (Return tt,
     add_stdout ["b.pre_release called by ann"]
       (add_debug "Running pre-release hook 'b'..."
          (add_stdout ["a.pre_release called by ann"]
             (add_debug "Running pre-release hook 'a'..." (world []))))).
Proof.
  intros self.
  apply (run_hooks_all_return self pre_release_event [] (world []) _ [tt; tt]).
  reflexivity.
Defined.

(** A process for [/src/foo] given an adapter bound to [/src/bar]. *)
Lemma BuildProcess_init_mismatched_vcs_witness :
  BuildProcess_init (loaders (foo (1, 5)%nat None 1)) "/src/bar" "cmake"
    (Some (git "fixes")) true false false false (world []) =
    (Raise (Exc BuildProcessError
              "Build process was instantiated with a mismatched VCS instance"),
     world []).
Proof.
  apply (BuildProcess_init_mismatched_vcs (loaders (foo (1, 5)%nat None 1))
           "/src/bar" "cmake" (git "fixes")).
  discriminate.
Defined.

(** The process made for [/src/foo]. *)
Lemma BuildProcess_init_invariants_witness :
  let made :=
    process (foo (1, 5)%nat None 1) (Some (git "fixes")) [] true false false in
  (∀ v, vcs made = Some v → vcs_path v = working_dir made) ∧
  working_dir made = "/src/foo" ∧
  build_system made = "cmake" ∧
  build_path made = "/src/foo/build".
Proof.
  intros made.
  destruct (BuildProcess_init_invariants (loaders (foo (1, 5)%nat None 1))
              "/src/foo" "cmake" (Some (git "fixes")) true false false false
              (world []) (world []) made eq_refl)
    as (Hbound & Hdir & Hsystem & _ & _ & _ & _ & _ & Hbuild & _).
  split; [exact Hbound|]. split; [exact Hdir|].
  split; [exact Hsystem|exact Hbuild].
Defined.

(** Where [foo-1.5] is installed under [/rel]. *)
Lemma get_package_install_path_under_witness :
  let self := process (foo (1, 5)%nat None 1) None [] true false false in
  get_package_install_path (λ _, true) self "/rel" = "/rel/foo/1.5" ∧
  PyStr.startswith (get_package_install_path (λ _, true) self "/rel") "/rel"
    = true.
Proof.
  intros self. split; [reflexivity|].
  exact (get_package_install_path_under (λ _, true) self "/rel"
           eq_refl eq_refl).
Defined.

End MoreSampleProperties.
